(** * The GCPKubernetesCluster reconciler

    A shallow embedding of
    [cmd/cloudcontroller/pkg/controllers/gcpkubernetesclusterreconciler.go].

    [Reconcile] only orchestrates three collaborators (the resource store, the
    cloud client and the event recorder), so it is embedded in a small state
    monad over an abstract world [W]: every collaborator method is a function
    that reads and updates the world, and every call the reconciler issues is
    appended to a log of calls that the theorems inspect.  The poll loop of
    [Reconcile] has no bound of its own; the embedding gives it a number of
    iterations to run and answers [Waiting] when it is still in the loop
    after that many. *)

From Stdlib Require Import String Ascii List ZArith Bool Lia.
Import ListNotations.

Local Open Scope string_scope.
Local Open Scope list_scope.

(** ** Go values used by the reconciler *)

(** A Go [error] value, seen through the two observations the reconciler
    makes of it: its message ([err.Error()], what [%v] prints) and whether
    the API machinery marks it with the NotFound status reason. *)
Record error : Type := mkError {
  Error : string;
  StatusReasonNotFound : bool
}.

Module fmt.
(** [fmt.Sprintf("%v", err)] for a non-nil error. *)
Definition Sprintf_v (err : error) : string := Error err.
End fmt.

Module kerr.
(** [kerr.IsNotFound(err)]. *)
Definition IsNotFound (err : error) : bool := StatusReasonNotFound err.
End kerr.

Module strings.
(** [strings.Split(s, sep)] for a separator of one byte: the pieces of [s]
    between the occurrences of [sep], one more than there are
    occurrences. *)
Fixpoint Split (s : string) (sep : ascii) : list string :=
  match s with
  | EmptyString => [EmptyString]
  | String c rest =>
      if Ascii.eqb c sep then EmptyString :: Split rest sep
      else match Split rest sep with
           | [] => [String c EmptyString]
           | piece :: pieces => String c piece :: pieces
           end
  end.

(** Number of occurrences of the byte [sep] in [s]. *)
Fixpoint Count (s : string) (sep : ascii) : nat :=
  match s with
  | EmptyString => 0
  | String c rest => (if Ascii.eqb c sep then 1 else 0) + Count rest sep
  end.
End strings.

Module time.
(** [time.Duration] counts nanoseconds. *)
Definition Duration := Z.
Definition Second : Duration := 1000000000%Z.
End time.

Module types.
Record NamespacedName : Type := {
  Namespace : string;
  Name : string
}.
End types.

Module ctrl.
Record Request : Type := { NamespacedName : types.NamespacedName }.

Record Result : Type := {
  Requeue : bool;
  RequeueAfter : time.Duration
}.

(** [ctrl.Result{}] *)
Definition zero : Result := {| Requeue := false; RequeueAfter := 0%Z |}.
End ctrl.

Module container.
(** The fields of [container.Cluster] and [container.Operation] that the
    reconciler reads or writes. *)
Record Cluster : Type := {
  Name : string;
  InitialNodeCount : Z;
  Status : string
}.

Record Operation : Type := { OperationName : string }.
End container.

Module benzaiten.
(** Modelled from the spec: the package [api/v1] that declares the custom
    resource is not among the sources embedded here.  The resource carries a
    name, the spec fields [zone], [clusterName] and [initialNodeCount], and
    a status with the single field [phase]; the phase is a string type, as
    the conversions [string(benzaiten.ClusterStatusRunning)] and
    [benzaiten.ClusterStatus(gkc.Status)] in the reconciler require. *)
Definition ClusterStatus := string.

Record GCPKubernetesClusterSpec : Type := {
  Zone : string;
  ClusterName : string;
  InitialNodeCount : Z
}.

Record GCPKubernetesClusterStatus : Type := { Phase : ClusterStatus }.

Record GCPKubernetesCluster : Type := {
  Name : string;
  Spec : GCPKubernetesClusterSpec;
  Status : GCPKubernetesClusterStatus
}.

(** [cluster.Status = GCPKubernetesClusterStatus{Phase: cs}] *)
Definition withStatus (cluster : GCPKubernetesCluster) (cs : ClusterStatus)
  : GCPKubernetesCluster :=
  {| Name := Name cluster;
     Spec := Spec cluster;
     Status := {| Phase := cs |} |}.

(** The five phase constants of [api/v1].  Their string values are not in
    the sources either, so the reconciler below is parameterised by them. *)
Record Phases : Type := {
  ClusterStatusUnspecified : ClusterStatus;
  ClusterStatusProvisioning : ClusterStatus;
  ClusterStatusRunning : ClusterStatus;
  ClusterStatusDegraded : ClusterStatus;
  ClusterStatusError : ClusterStatus
}.

(** The constants name five different phases. *)
Definition distinct (p : Phases) : bool :=
  let all := [ClusterStatusUnspecified p; ClusterStatusProvisioning p;
              ClusterStatusRunning p; ClusterStatusDegraded p;
              ClusterStatusError p] in
  (fix nodup (l : list string) : bool :=
     match l with
     | [] => true
     | x :: l' => negb (existsb (String.eqb x) l') && nodup l'
     end) all.
End benzaiten.

(** [notFoundGCPResource]: the second element of the message split at the
    colons is compared with the text of a 404.  Indexing a Go slice out of
    range panics; [None] is that panic. *)
Definition notFoundGCPResource (err : error) : option bool :=
  match nth_error (strings.Split (fmt.Sprintf_v err) ":"%char) 1 with
  | Some segment => Some (String.eqb segment " Error 404")
  | None => None
  end.

(** ** Collaborators *)

Module client.
(** [client.Client], as far as the reconciler uses it: [Get] fills the
    object or fails; [Status().Update] sends the object and may fail, and
    it stores the server's answer back into the object it was given. *)
Record Client (W : Type) : Type := {
  Get : types.NamespacedName -> W ->
        (benzaiten.GCPKubernetesCluster + error) * W;
  StatusUpdate : benzaiten.GCPKubernetesCluster -> W ->
        (benzaiten.GCPKubernetesCluster * option error) * W
}.
Arguments Get {W}.
Arguments StatusUpdate {W}.
End client.

Module record.
(** [record.EventRecorder]: fire and forget. *)
Record EventRecorder (W : Type) : Type := {
  Event : benzaiten.GCPKubernetesCluster -> string -> string -> string ->
          W -> W
}.
Arguments Event {W}.
End record.

(** Modelled from the spec: [CloudProviders] is declared in a file of the
    package that is not among the sources embedded here.  Its [GCP] member
    offers [GetCluster(zone, name)] and [CreateCluster(zone, cluster)], each
    returning a value or an error: a call answers with a non-nil pointer
    and a [nil] error, or with an error. *)
Record GCPProvider (W : Type) : Type := {
  GetCluster : string -> string -> W -> (container.Cluster + error) * W;
  CreateCluster : string -> container.Cluster -> W ->
                  (container.Operation + error) * W
}.
Arguments GetCluster {W}.
Arguments CreateCluster {W}.

Record CloudProviders (W : Type) : Type := { GCP : GCPProvider W }.
Arguments GCP {W}.

Module context.
(** What the [select] of the poll loop can receive: a tick of the ticker,
    or the closing of [ctx.Done()], after which [ctx.Err()] is the error
    carried here.  Which of the two is received is the world's choice. *)
Inductive Ready : Type :=
| TickerC
| Done (err : error).

Record Context (W : Type) : Type := { Select : W -> Ready * W }.
Arguments Select {W}.
End context.

Record GCPKubernetesClusterReconciler (W : Type) : Type := {
  Client : client.Client W;
  eventRecorder : record.EventRecorder W;
  cloud : CloudProviders W
}.
Arguments Client {W}.
Arguments eventRecorder {W}.
Arguments cloud {W}.

(** ** The log of calls *)

Inductive Call : Type :=
| CallLogInfo (msg : string)
| CallLogError (err : error) (msg : string)
| CallGet (key : types.NamespacedName)
| CallStatusUpdate (obj : benzaiten.GCPKubernetesCluster)
| CallGetCluster (zone name : string)
| CallCreateCluster (zone : string) (cluster : container.Cluster)
| CallEvent (obj : benzaiten.GCPKubernetesCluster)
            (eventtype reason message : string)
| CallNewTicker (d : time.Duration)
| CallTickerStop.

(** The phases sent to the store, in order. *)
Fixpoint persisted (log : list Call) : list benzaiten.ClusterStatus :=
  match log with
  | [] => []
  | CallStatusUpdate obj :: log' =>
      benzaiten.Phase (benzaiten.Status obj) :: persisted log'
  | _ :: log' => persisted log'
  end.

(** The notifications sent to the event recorder: type, reason, message. *)
Fixpoint notified (log : list Call) : list (string * string * string) :=
  match log with
  | [] => []
  | CallEvent _ eventtype reason message :: log' =>
      (eventtype, reason, message) :: notified log'
  | _ :: log' => notified log'
  end.

(** The create calls sent to the provider. *)
Fixpoint created (log : list Call) : list (string * container.Cluster) :=
  match log with
  | [] => []
  | CallCreateCluster zone cluster :: log' => (zone, cluster) :: created log'
  | _ :: log' => created log'
  end.

(** What an invocation of [Reconcile] comes to: it returns a result and an
    error ([None] is [nil]), it panics, or it is still in the poll loop after
    the iterations it was given. *)
Inductive Outcome : Type :=
| Return (res : ctrl.Result) (err : option error)
| Panic (msg : string)
| Waiting.

(** ** The reconciler *)

Section Reconciler.

Context {W : Type}.

Variable phases : benzaiten.Phases.
Variable cr : GCPKubernetesClusterReconciler W.
Variable ctx : context.Context W.

Abbreviation ClusterStatusUnspecified :=
  (benzaiten.ClusterStatusUnspecified phases).
Abbreviation ClusterStatusProvisioning :=
  (benzaiten.ClusterStatusProvisioning phases).
Abbreviation ClusterStatusRunning := (benzaiten.ClusterStatusRunning phases).
Abbreviation ClusterStatusDegraded := (benzaiten.ClusterStatusDegraded phases).
Abbreviation ClusterStatusError := (benzaiten.ClusterStatusError phases).

(** The state threaded through an invocation: the world the collaborators
    act on, and the calls issued so far. *)
Record State : Type := mkState {
  world : W;
  calls : list Call
}.

Definition M (A : Type) : Type := State -> A * State.

Definition ret {A : Type} (a : A) : M A := fun st => (a, st).

Definition bind {A B : Type} (m : M A) (k : A -> M B) : M B :=
  fun st => let (a, st') := m st in k a st'.

(** A call that only leaves a trace. *)
Definition emit (c : Call) : M unit :=
  fun st => (tt, mkState (world st) (calls st ++ [c])).

(** A call answered by the world. *)
Definition perform {A : Type} (c : Call) (f : W -> A * W) : M A :=
  fun st => let (a, w) := f (world st) in (a, mkState w (calls st ++ [c])).

(** Receiving from the channels of the [select]; this is no call. *)
Definition receive : M context.Ready :=
  fun st => let (r, w) := context.Select ctx (world st) in
            (r, mkState w (calls st)).

Notation "x <- m ;; k" := (bind m (fun x => k))
  (at level 61, m at next level, right associativity).
Notation "m ;;; k" := (bind m (fun _ => k))
  (at level 61, right associativity).

Definition Info (msg : string) : M unit := emit (CallLogInfo msg).

Definition LogError (err : error) (msg : string) : M unit :=
  emit (CallLogError err msg).

Definition Get (key : types.NamespacedName)
  : M (benzaiten.GCPKubernetesCluster + error) :=
  perform (CallGet key) (client.Get (Client cr) key).

Definition StatusUpdate (obj : benzaiten.GCPKubernetesCluster)
  : M (benzaiten.GCPKubernetesCluster * option error) :=
  perform (CallStatusUpdate obj) (client.StatusUpdate (Client cr) obj).

Definition GCPGetCluster (zone name : string)
  : M (container.Cluster + error) :=
  perform (CallGetCluster zone name) (GetCluster (GCP (cloud cr)) zone name).

Definition GCPCreateCluster (zone : string) (cluster : container.Cluster)
  : M (container.Operation + error) :=
  perform (CallCreateCluster zone cluster)
          (CreateCluster (GCP (cloud cr)) zone cluster).

Definition Event (obj : benzaiten.GCPKubernetesCluster)
           (eventtype reason message : string) : M unit :=
  perform (CallEvent obj eventtype reason message)
          (fun w => (tt, record.Event (eventRecorder cr)
                                      obj eventtype reason message w)).

(** [updateStatus]: logs when asked to, and replaces the status of the
    cluster object by one that holds the phase [cs]. *)
Definition updateStatus (toLog : bool)
           (cluster : benzaiten.GCPKubernetesCluster)
           (cs : benzaiten.ClusterStatus) (msg : string)
  : M benzaiten.GCPKubernetesCluster :=
  (if toLog then Info msg else ret tt) ;;;
  ret (benzaiten.withStatus cluster cs).

(** What one iteration of the poll loop comes to: the loop goes round
    again with the cluster object as it is now, or [Reconcile] returns. *)
Inductive Iteration : Type :=
| Continue (gkcCR : benzaiten.GCPKubernetesCluster)
| Break (o : Outcome).

(** One iteration of the [for { select { ... } }] of [Reconcile]. *)
Definition pollOnce (gkcCR : benzaiten.GCPKubernetesCluster) : M Iteration :=
  ready <- receive ;;
  match ready with
  | context.TickerC =>
      r <- GCPGetCluster (benzaiten.Zone (benzaiten.Spec gkcCR))
                         (benzaiten.ClusterName (benzaiten.Spec gkcCR)) ;;
      match r with
      | inr err =>
          LogError err "error verifying cluster status" ;;;
          ret (Break (Return ctrl.zero (Some err)))
      | inl gkcCreated =>
          Event gkcCR "Normal" "ClusterProvisioning"
                "GCP Kubernetes Cluster provisioning" ;;;
          gkcCR <- updateStatus false gkcCR ClusterStatusProvisioning
                     "GCP Kubernetes Cluster provisioning" ;;
          u <- StatusUpdate gkcCR ;;
          let (gkcCR, uerr) := u in
          match uerr with
          | Some err =>
              LogError err "error updating gcpkubernetescluster status" ;;;
              ret (Break (Return ctrl.zero (Some err)))
          | None =>
              if String.eqb (container.Status gkcCreated)
                            ClusterStatusRunning then
                Event gkcCR "Normal" "ClusterRunning"
                      "GCP Kubernetes Cluster running" ;;;
                gkcCR <- updateStatus true gkcCR ClusterStatusRunning
                           "GCP Kubernetes Cluster running" ;;
                u <- StatusUpdate gkcCR ;;
                match snd u with
                | Some err =>
                    LogError err
                      "error updating gcpkubernetescluster status" ;;;
                    ret (Break (Return ctrl.zero (Some err)))
                | None => ret (Break (Return ctrl.zero None))
                end
              else if String.eqb (container.Status gkcCreated)
                                 ClusterStatusError
                   || String.eqb (container.Status gkcCreated)
                                 ClusterStatusDegraded
                   || String.eqb (container.Status gkcCreated)
                                 ClusterStatusUnspecified then
                Event gkcCR "Warning" "ClusterNotRunning"
                      ("GCP Kubernetes Cluster status is not running: "
                         ++ container.Status gkcCreated) ;;;
                gkcCR <- updateStatus true gkcCR ClusterStatusError
                           "GCP Kubernetes Cluster not running" ;;
                u <- StatusUpdate gkcCR ;;
                match snd u with
                | Some err =>
                    LogError err
                      "error updating gcpkubernetescluster status" ;;;
                    ret (Break (Return ctrl.zero (Some err)))
                | None => ret (Break (Return ctrl.zero None))
                end
              else ret (Continue gkcCR)
          end
      end
  | context.Done err => ret (Break (Return ctrl.zero (Some err)))
  end.

(** The loop itself, run for at most [n] iterations. *)
Fixpoint poll (n : nat) (gkcCR : benzaiten.GCPKubernetesCluster)
  : M Outcome :=
  match n with
  | O => ret Waiting
  | S n' =>
      it <- pollOnce gkcCR ;;
      match it with
      | Continue gkcCR' => poll n' gkcCR'
      | Break o => ret o
      end
  end.

(** The provider statuses on which the loop ends. *)
Definition terminal (status : string) : bool :=
  String.eqb status ClusterStatusRunning
  || (String.eqb status ClusterStatusError
      || String.eqb status ClusterStatusDegraded
      || String.eqb status ClusterStatusUnspecified).

(** The cluster object and the state after [k] iterations of the loop, when
    every one of them goes round again. *)
Fixpoint rounds (k : nat) (gkcCR : benzaiten.GCPKubernetesCluster)
         (st : State) : option (benzaiten.GCPKubernetesCluster * State) :=
  match k with
  | O => Some (gkcCR, st)
  | S k' =>
      match pollOnce gkcCR st with
      | (Continue gkcCR', st') => rounds k' gkcCR' st'
      | (Break _, _) => None
      end
  end.

(** [defer ticker.Stop()] runs when [Reconcile] leaves the loop. *)
Definition deferred (o : Outcome) : M Outcome :=
  match o with
  | Waiting => ret Waiting
  | _ => emit CallTickerStop ;;; ret o
  end.

(** [Reconcile], with the poll loop run for at most [n] iterations. *)
Definition Reconcile (n : nat) (req : ctrl.Request) : M Outcome :=
  r <- Get (ctrl.NamespacedName req) ;;
  match r with
  | inr err =>
      if kerr.IsNotFound err then
        Info "gcpkubernetescluster not found" ;;;
        ret (Return ctrl.zero None)
      else ret (Return ctrl.zero (Some err))
  | inl gkcCR =>
      g <- GCPGetCluster (benzaiten.Zone (benzaiten.Spec gkcCR))
                         (benzaiten.ClusterName (benzaiten.Spec gkcCR)) ;;
      match g with
      | inr err =>
          match notFoundGCPResource err with
          | None => ret (Panic "index out of range [1] with length 1")
          | Some true =>
              Info "gcpkubernetescluster not found, creating cluster..." ;;;
              op <- GCPCreateCluster
                      (benzaiten.Zone (benzaiten.Spec gkcCR))
                      {| container.Name :=
                           benzaiten.ClusterName (benzaiten.Spec gkcCR);
                         container.InitialNodeCount :=
                           benzaiten.InitialNodeCount (benzaiten.Spec gkcCR);
                         container.Status := "" |} ;;
              match op with
              | inr err =>
                  LogError err "error creating gcpkubernetescluster" ;;;
                  ret (Return ctrl.zero (Some err))
              | inl _ =>
                  Event gkcCR "Normal" "ClusterCreation"
                        "GCP Kubernetes Cluster creating" ;;;
                  gkcCR <- updateStatus true gkcCR ClusterStatusProvisioning
                             "GCP Kubernetes Cluster creating" ;;
                  u <- StatusUpdate gkcCR ;;
                  let (gkcCR, uerr) := u in
                  match uerr with
                  | Some err =>
                      LogError err
                        "error updating gcpkubernetescluster status" ;;;
                      ret (Return ctrl.zero (Some err))
                  | None =>
                      emit (CallNewTicker (3 * time.Second)%Z) ;;;
                      o <- poll n gkcCR ;;
                      deferred o
                  end
              end
          | Some false =>
              LogError err "error getting gcpkubernetescluster" ;;;
              ret (Return ctrl.zero (Some err))
          end
      | inl gkc =>
          let gkc := {| container.Name := container.Name gkc;
                        container.InitialNodeCount :=
                          container.InitialNodeCount gkc;
                        container.Status := ClusterStatusRunning |} in
          Event gkcCR "Normal" "ClusterDetection"
                "GCP Kubernetes Cluster found" ;;;
          gkcCR <- updateStatus true gkcCR (container.Status gkc)
                     "GCP Kubernetes Cluster found" ;;
          u <- StatusUpdate gkcCR ;;
          match snd u with
          | Some err =>
              LogError err "error updating gcpkubernetescluster status" ;;;
              ret (Return ctrl.zero (Some err))
          | None =>
              Info "gcpkubernetescluster found, synchronizing..." ;;;
              Info "gcp kubernetes cluster reconciled" ;;;
              ret (Return {| ctrl.Requeue := false;
                             ctrl.RequeueAfter := (time.Second * 60)%Z |}
                          None)
          end
      end
  end.

(** The [container.Cluster] that [Reconcile] asks the provider to create for
    a resource. *)
Definition requested (gkcCR : benzaiten.GCPKubernetesCluster)
  : container.Cluster :=
  {| container.Name := benzaiten.ClusterName (benzaiten.Spec gkcCR);
     container.InitialNodeCount :=
       benzaiten.InitialNodeCount (benzaiten.Spec gkcCR);
     container.Status := "" |}.

(** The notification of every tick of the loop. *)
Definition provisioningEvent : string * string * string :=
  ("Normal", "ClusterProvisioning", "GCP Kubernetes Cluster provisioning").

(** The world takes an invocation down the creation path: the store holds
    the resource, the provider answers the first query with an error that
    the classifier takes for not-found, it accepts the create call, and the
    store accepts the status write.  [gkcCR'] is the cluster object as the
    store hands it back and [st'] the state in which the loop is entered. *)
Definition creating (req : ctrl.Request) (st : State)
           (gkcCR' : benzaiten.GCPKubernetesCluster) (st' : State) : Prop :=
  exists gkcCR err op w1 w2 w3 w4,
    client.Get (Client cr) (ctrl.NamespacedName req) (world st)
      = (inl gkcCR, w1) /\
    GetCluster (GCP (cloud cr)) (benzaiten.Zone (benzaiten.Spec gkcCR))
               (benzaiten.ClusterName (benzaiten.Spec gkcCR)) w1
      = (inr err, w2) /\
    notFoundGCPResource err = Some true /\
    CreateCluster (GCP (cloud cr)) (benzaiten.Zone (benzaiten.Spec gkcCR))
                  (requested gkcCR) w2
      = (inl op, w3) /\
    client.StatusUpdate (Client cr)
      (benzaiten.withStatus gkcCR ClusterStatusProvisioning)
      (record.Event (eventRecorder cr) gkcCR "Normal" "ClusterCreation"
                    "GCP Kubernetes Cluster creating" w3)
      = ((gkcCR', None), w4) /\
    st' = mkState w4
            (calls st ++
             [CallGet (ctrl.NamespacedName req);
              CallGetCluster (benzaiten.Zone (benzaiten.Spec gkcCR))
                             (benzaiten.ClusterName (benzaiten.Spec gkcCR));
              CallLogInfo
                "gcpkubernetescluster not found, creating cluster...";
              CallCreateCluster (benzaiten.Zone (benzaiten.Spec gkcCR))
                                (requested gkcCR);
              CallEvent gkcCR "Normal" "ClusterCreation"
                        "GCP Kubernetes Cluster creating";
              CallLogInfo "GCP Kubernetes Cluster creating";
              CallStatusUpdate
                (benzaiten.withStatus gkcCR ClusterStatusProvisioning);
              CallNewTicker (3 * time.Second)%Z]).

End Reconciler.

Arguments mkState {W}.
Arguments world {W}.
Arguments calls {W}.

(** ** A scripted world

    A substitutable fake of the three collaborators and of the invocation
    context: the store and the provider answer from a script, the recorder
    does nothing, and the [select] receives what the script lists.  It is
    used to run [Reconcile] on concrete scenarios. *)

Module fake.

Record World : Type := {
  stored : benzaiten.GCPKubernetesCluster + error;
  clusters : list (container.Cluster + error);
  operation : container.Operation + error;
  ready : list context.Ready
}.

(** The answer of the provider once its script is used up. *)
Definition unscripted : error := mkError "fake: no scripted answer" false.

Definition storeGet (_ : types.NamespacedName) (w : World)
  : (benzaiten.GCPKubernetesCluster + error) * World := (stored w, w).

(** The store accepts every status write and hands the object back as it
    was sent. *)
Definition storeStatusUpdate (obj : benzaiten.GCPKubernetesCluster)
           (w : World)
  : (benzaiten.GCPKubernetesCluster * option error) * World :=
  ((obj, None), w).

(** The next scripted answer of the provider to a query. *)
Definition providerGetCluster (_ _ : string) (w : World)
  : (container.Cluster + error) * World :=
  match clusters w with
  | [] => (inr unscripted, w)
  | r :: rs =>
      (r,
       {| stored := stored w; clusters := rs;
          operation := operation w; ready := ready w |})
  end.

Definition providerCreateCluster (_ : string) (_ : container.Cluster)
           (w : World)
  : (container.Operation + error) * World := (operation w, w).

(** The next scripted case of the [select]; a tick when the script is used
    up. *)
Definition contextSelect (w : World) : context.Ready * World :=
  match ready w with
  | [] => (context.TickerC, w)
  | r :: rs =>
      (r,
       {| stored := stored w; clusters := clusters w;
          operation := operation w; ready := rs |})
  end.

Definition cr : GCPKubernetesClusterReconciler World :=
  {| Client := {| client.Get := storeGet;
                  client.StatusUpdate := storeStatusUpdate |};
     eventRecorder := {| record.Event := fun _ _ _ _ w => w |};
     cloud := {| GCP := {| GetCluster := providerGetCluster;
                           CreateCluster := providerCreateCluster |} |} |}.

Definition ctx : context.Context World :=
  {| context.Select := contextSelect |}.

(** The phase constants with the values of the provider's status strings. *)
Definition phases : benzaiten.Phases :=
  {| benzaiten.ClusterStatusUnspecified := "STATUS_UNSPECIFIED";
     benzaiten.ClusterStatusProvisioning := "PROVISIONING";
     benzaiten.ClusterStatusRunning := "RUNNING";
     benzaiten.ClusterStatusDegraded := "DEGRADED";
     benzaiten.ClusterStatusError := "ERROR" |}.

(** The resource of the scenarios. *)
Definition demo : benzaiten.GCPKubernetesCluster :=
  {| benzaiten.Name := "demo";
     benzaiten.Spec := {| benzaiten.Zone := "us-central1-a";
                          benzaiten.ClusterName := "demo";
                          benzaiten.InitialNodeCount := 3 |};
     benzaiten.Status := {| benzaiten.Phase := "" |} |}.

Definition req : ctrl.Request :=
  {| ctrl.NamespacedName :=
       {| types.Namespace := "default"; types.Name := "demo" |} |}.

(** The store's error for a resource it does not hold. *)
Definition gone : error :=
  mkError "gcpkubernetesclusters.benzaiten demo not found" true.

(** The provider's error for a cluster that does not exist. *)
Definition notFound : error :=
  mkError "googleapi: Error 404: Not found: projects/p/zones/us-central1-a/clusters/demo., notFound"
          false.

(** An error whose message has no colon. *)
Definition deadline : error := mkError "context deadline exceeded" false.

(** An error whose message has colons and is no 404. *)
Definition forbidden : error :=
  mkError "googleapi: Error 403: Required permission is missing, forbidden"
          false.

(** The error of a cancelled context. *)
Definition canceled : error := mkError "context canceled" false.

Definition cluster (status : string) : container.Cluster :=
  {| container.Name := "demo";
     container.InitialNodeCount := 3;
     container.Status := status |}.

(** A world in which the store holds [demo], the provider answers the
    queries with [answers] and accepts a create call, and the [select]
    receives [cases]. *)
Definition script (answers : list (container.Cluster + error))
           (cases : list context.Ready) : World :=
  {| stored := inl demo;
     clusters := answers;
     operation := inl {| container.OperationName := "operation-1" |};
     ready := cases |}.

(** The store does not hold the resource. *)
Definition absent : World :=
  {| stored := inr gone; clusters := [];
     operation := inr unscripted; ready := [] |}.

(** An invocation starts with nothing logged. *)
Definition start (w : World) : State := mkState w [].

(** The state in which the loop is entered from [start w], when [w] goes
    down the creation path. *)
Definition entered (w : World) : State :=
  mkState
    {| stored := stored w; clusters := tl (clusters w);
       operation := operation w; ready := ready w |}
    [CallGet (ctrl.NamespacedName req);
     CallGetCluster "us-central1-a" "demo";
     CallLogInfo "gcpkubernetescluster not found, creating cluster...";
     CallCreateCluster "us-central1-a" (requested demo);
     CallEvent demo "Normal" "ClusterCreation"
               "GCP Kubernetes Cluster creating";
     CallLogInfo "GCP Kubernetes Cluster creating";
     CallStatusUpdate (benzaiten.withStatus demo "PROVISIONING");
     CallNewTicker 3000000000%Z].

End fake.

(** ** More of the log *)

(** The cluster objects sent to the store, in order. *)
Fixpoint written (log : list Call) : list benzaiten.GCPKubernetesCluster :=
  match log with
  | [] => []
  | CallStatusUpdate obj :: log' => obj :: written log'
  | _ :: log' => written log'
  end.

(** The queries sent to the provider: zone and name. *)
Fixpoint queried (log : list Call) : list (string * string) :=
  match log with
  | [] => []
  | CallGetCluster zone name :: log' => (zone, name) :: queried log'
  | _ :: log' => queried log'
  end.

(** The number of tickers started. *)
Fixpoint started (log : list Call) : nat :=
  match log with
  | [] => 0
  | CallNewTicker _ :: log' => S (started log')
  | _ :: log' => started log'
  end.

(** The number of tickers stopped. *)
Fixpoint stopped (log : list Call) : nat :=
  match log with
  | [] => 0
  | CallTickerStop :: log' => S (stopped log')
  | _ :: log' => stopped log'
  end.

(** ** A store that can refuse a write

    The scripted world, with a script for the results of the status writes
    as well. *)

Module faulty.

Record World : Type := {
  inner : fake.World;
  writes : list (option error)
}.

Definition lift {A : Type} (f : fake.World -> A * fake.World) (w : World)
  : A * World :=
  let (a, i) := f (inner w) in (a, {| inner := i; writes := writes w |}).

(** The next scripted result of a status write; [nil] when the script is
    used up.  The object is handed back as it was sent. *)
Definition storeStatusUpdate (obj : benzaiten.GCPKubernetesCluster)
           (w : World)
  : (benzaiten.GCPKubernetesCluster * option error) * World :=
  match writes w with
  | [] => ((obj, None), w)
  | r :: rs => ((obj, r), {| inner := inner w; writes := rs |})
  end.

Definition cr : GCPKubernetesClusterReconciler World :=
  {| Client := {| client.Get := fun key => lift (fake.storeGet key);
                  client.StatusUpdate := storeStatusUpdate |};
     eventRecorder := {| record.Event := fun _ _ _ _ w => w |};
     cloud :=
       {| GCP :=
            {| GetCluster :=
                 fun zone name => lift (fake.providerGetCluster zone name);
               CreateCluster :=
                 fun zone cluster =>
                   lift (fake.providerCreateCluster zone cluster) |} |} |}.

Definition ctx : context.Context World :=
  {| context.Select := lift fake.contextSelect |}.

(** The store's error for a write that lost against another one. *)
Definition conflict : error :=
  mkError "Operation cannot be fulfilled on gcpkubernetesclusters.benzaiten demo: the object has been modified"
          false.

(** The store's error when it cannot be reached. *)
Definition unreachable : error :=
  mkError "Get https://10.0.0.1:443/apis: dial tcp 10.0.0.1:443: connect: connection refused"
          false.

(** The provider's error for a create call it turns down. *)
Definition quota : error :=
  mkError "googleapi: Error 403: Insufficient regional quota, quotaExceeded"
          false.

Definition script (answers : list (container.Cluster + error))
           (cases : list context.Ready) (results : list (option error))
  : World :=
  {| inner := fake.script answers cases; writes := results |}.

Definition start (w : World) : State := mkState w [].

End faulty.

(** ** A provider that goes on answering

    The scripted provider, which once its script is used up reports the
    cluster in the status [status] on every query. *)

Module steady.

Definition providerGetCluster (status : string) (zone name : string)
           (w : fake.World) : (container.Cluster + error) * fake.World :=
  match fake.clusters w with
  | [] => (inl (fake.cluster status), w)
  | _ :: _ => fake.providerGetCluster zone name w
  end.

Definition cr (status : string) : GCPKubernetesClusterReconciler fake.World :=
  {| Client := {| client.Get := fake.storeGet;
                  client.StatusUpdate := fake.storeStatusUpdate |};
     eventRecorder := {| record.Event := fun _ _ _ _ w => w |};
     cloud := {| GCP := {| GetCluster := providerGetCluster status;
                           CreateCluster := fake.providerCreateCluster |} |} |}.

(** The provider's script and that of the [select] are used up. *)
Definition settled (w : fake.World) : Prop :=
  fake.clusters w = [] /\ fake.ready w = [].

End steady.

(** ** What a stretch of calls of the loop looks like *)

(** The phases that [Reconcile] writes. *)
Definition writable (phases : benzaiten.Phases)
           (p : benzaiten.ClusterStatus) : Prop :=
  p = benzaiten.ClusterStatusProvisioning phases \/
  p = benzaiten.ClusterStatusRunning phases \/
  p = benzaiten.ClusterStatusError phases.

(** As many notifications as status writes, only writable phases written,
    nothing created, no ticker started or stopped. *)
Definition orderly (phases : benzaiten.Phases) (log : list Call) : Prop :=
  length (notified log) = length (persisted log) /\
  Forall (writable phases) (persisted log) /\
  created log = [] /\
  started log = 0 /\
  stopped log = 0.

(** The phase that the loop writes last on a status that ends it, and the
    notification it sends before that write. *)
Definition finalPhase (phases : benzaiten.Phases) (status : string)
  : benzaiten.ClusterStatus :=
  if String.eqb status (benzaiten.ClusterStatusRunning phases)
  then benzaiten.ClusterStatusRunning phases
  else benzaiten.ClusterStatusError phases.

Definition finalEvent (phases : benzaiten.Phases) (status : string)
  : string * string * string :=
  if String.eqb status (benzaiten.ClusterStatusRunning phases)
  then ("Normal", "ClusterRunning", "GCP Kubernetes Cluster running")
  else ("Warning", "ClusterNotRunning",
        ("GCP Kubernetes Cluster status is not running: " ++ status)%string).

(** * Properties *)

(** ** The log projections *)

Lemma persisted_app (l1 l2 : list Call) :
  persisted (l1 ++ l2) = persisted l1 ++ persisted l2.
Proof.
  induction l1 as [|c l1 IH]; [reflexivity|].
  destruct c; simpl; rewrite ?IH; reflexivity.
Qed.

Lemma notified_app (l1 l2 : list Call) :
  notified (l1 ++ l2) = notified l1 ++ notified l2.
Proof.
  induction l1 as [|c l1 IH]; [reflexivity|].
  destruct c; simpl; rewrite ?IH; reflexivity.
Qed.

Lemma created_app (l1 l2 : list Call) :
  created (l1 ++ l2) = created l1 ++ created l2.
Proof.
  induction l1 as [|c l1 IH]; [reflexivity|].
  destruct c; simpl; rewrite ?IH; reflexivity.
Qed.

(** ** The classifier *)

Lemma Split_nonempty (s : string) (sep : ascii) : strings.Split s sep <> [].
Proof.
  destruct s as [|c s]; simpl; [discriminate|].
  destruct (Ascii.eqb c sep); [discriminate|].
  destruct (strings.Split s sep); discriminate.
Qed.

Lemma Split_length (s : string) (sep : ascii) :
  length (strings.Split s sep) = S (strings.Count s sep).
Proof.
  induction s as [|c s IH]; simpl; [reflexivity|].
  destruct (Ascii.eqb c sep); simpl.
  - now rewrite IH.
  - destruct (strings.Split s sep) as [|piece pieces] eqn:E.
    + now apply Split_nonempty in E.
    + simpl in *. exact IH.
Qed.

(** The classifier panics exactly on the messages without a colon. *)
Lemma notFoundGCPResource_panics (err : error) :
  notFoundGCPResource err = None <-> strings.Count (Error err) ":"%char = 0.
Proof.
  unfold notFoundGCPResource, fmt.Sprintf_v.
  pose proof (Split_length (Error err) ":"%char) as L.
  destruct (strings.Split (Error err) ":"%char) as [|p0 [|p1 ps]];
    simpl in *; split; intro H; try discriminate; try lia; reflexivity.
Qed.

(** On a message with a colon the classifier answers, and it answers [true]
    only when the text between the first colon and the next one (or the end)
    is that of a 404. *)
Lemma notFoundGCPResource_answers (err : error) :
  strings.Count (Error err) ":"%char <> 0 ->
  exists segment,
    nth_error (strings.Split (Error err) ":"%char) 1 = Some segment /\
    notFoundGCPResource err = Some (String.eqb segment " Error 404").
Proof.
  intro H. unfold notFoundGCPResource, fmt.Sprintf_v.
  pose proof (Split_length (Error err) ":"%char) as L.
  destruct (strings.Split (Error err) ":"%char) as [|p0 [|p1 ps]];
    simpl in *; try lia.
  exists p1. split; reflexivity.
Qed.

(** ** The poll loop *)

Section Properties.

Context {W : Type}.

Variable phases : benzaiten.Phases.
Variable cr : GCPKubernetesClusterReconciler W.
Variable ctx : context.Context W.

Abbreviation ClusterStatusProvisioning :=
  (benzaiten.ClusterStatusProvisioning phases).
Abbreviation ClusterStatusRunning := (benzaiten.ClusterStatusRunning phases).
Abbreviation ClusterStatusError := (benzaiten.ClusterStatusError phases).
Abbreviation zoneOf gkcCR := (benzaiten.Zone (benzaiten.Spec gkcCR)).
Abbreviation clusterNameOf gkcCR :=
  (benzaiten.ClusterName (benzaiten.Spec gkcCR)).

Ltac run :=
  unfold Reconcile, pollOnce, deferred, updateStatus, Get, StatusUpdate,
    GCPGetCluster, GCPCreateCluster, Event, Info, LogError,
    bind, ret, emit, perform, receive; simpl.

Ltac run_in H :=
  unfold Reconcile, pollOnce, deferred, updateStatus, Get, StatusUpdate,
    GCPGetCluster, GCPCreateCluster, Event, Info, LogError,
    bind, ret, emit, perform, receive in H; simpl in H.

(** Case analysis on the innermost scrutinee of [H]: an answer of the world
    or a test of the code. *)
Ltac branch H :=
  match type of H with
  | context [match ?x with _ => _ end] =>
      lazymatch x with
      | context [match _ with _ => _ end] => fail
      | _ => destruct x eqn:?; simpl in H
      end
  end.

(** An iteration goes round again exactly when the tick is received, the
    query succeeds, the store accepts the write of Provisioning, and the
    status is none of the four that end the loop. *)
Lemma pollOnce_round gkcCR (st : State) gkcCR' st' :
  pollOnce phases cr ctx gkcCR st = (Continue gkcCR', st') <->
  exists w1 c w2 w3,
    context.Select ctx (world st) = (context.TickerC, w1) /\
    GetCluster (GCP (cloud cr)) (zoneOf gkcCR) (clusterNameOf gkcCR) w1
      = (inl c, w2) /\
    client.StatusUpdate (Client cr)
      (benzaiten.withStatus gkcCR ClusterStatusProvisioning)
      (record.Event (eventRecorder cr) gkcCR "Normal" "ClusterProvisioning"
                    "GCP Kubernetes Cluster provisioning" w2)
      = ((gkcCR', None), w3) /\
    terminal phases (container.Status c) = false /\
    st' = mkState w3
            (calls st ++
             [CallGetCluster (zoneOf gkcCR) (clusterNameOf gkcCR);
              CallEvent gkcCR "Normal" "ClusterProvisioning"
                        "GCP Kubernetes Cluster provisioning";
              CallStatusUpdate
                (benzaiten.withStatus gkcCR ClusterStatusProvisioning)]).
Proof.
  split.
  - intro H. run_in H. unfold terminal.
    repeat branch H; try discriminate H.
    inversion H; subst. do 4 eexists.
    rewrite <- !app_assoc. simpl.
    repeat match goal with E : _ = _ |- _ => rewrite E; clear E end.
    repeat split; reflexivity.
  - intros (w1 & c & w2 & w3 & E1 & E2 & E3 & E4 & ->).
    unfold terminal in E4. apply orb_false_iff in E4 as [E4 E5].
    run. rewrite E1. simpl. rewrite E2. simpl. rewrite E3. simpl.
    rewrite E4, E5. rewrite <- !app_assoc. reflexivity.
Qed.

(** The log that [k] rounds leave. *)
Lemma rounds_log (k : nat) :
  forall gkcCR (st : State) gkcCR' st',
    rounds phases cr ctx k gkcCR st = Some (gkcCR', st') ->
    persisted (calls st')
      = persisted (calls st) ++ repeat ClusterStatusProvisioning k /\
    notified (calls st')
      = notified (calls st) ++ repeat provisioningEvent k /\
    created (calls st') = created (calls st).
Proof.
  induction k as [|k IH]; intros gkcCR st gkcCR' st' H; simpl in H.
  - inversion H; subst. simpl. now rewrite !app_nil_r.
  - destruct (pollOnce phases cr ctx gkcCR st) as [[g1|o] st1] eqn:E;
      [|discriminate H].
    apply pollOnce_round in E as (w1 & c & w2 & w3 & _ & _ & _ & _ & ->).
    apply IH in H as (Hp & Hn & Hc). simpl in *.
    rewrite persisted_app in Hp. rewrite notified_app in Hn.
    rewrite created_app in Hc. simpl in *.
    rewrite Hp, Hn, Hc, <- !app_assoc, app_nil_r. auto.
Qed.

(** After [k] rounds the loop goes on from where they left it. *)
Lemma poll_rounds (k n : nat) :
  forall gkcCR (st : State) gkcCR' st',
    rounds phases cr ctx k gkcCR st = Some (gkcCR', st') ->
    poll phases cr ctx (k + n) gkcCR st = poll phases cr ctx n gkcCR' st'.
Proof.
  induction k as [|k IH]; intros gkcCR st gkcCR' st' H; simpl in H.
  - now inversion H.
  - simpl. unfold bind at 1.
    destruct (pollOnce phases cr ctx gkcCR st) as [[g1|o] st1];
      [|discriminate H].
    now apply IH.
Qed.

(** With fewer iterations than rounds, the loop is still going. *)
Lemma poll_Waiting (k n : nat) :
  forall gkcCR (st : State) gkcCR' st',
    rounds phases cr ctx k gkcCR st = Some (gkcCR', st') ->
    n <= k ->
    fst (poll phases cr ctx n gkcCR st) = Waiting.
Proof.
  revert k. induction n as [|n IH]; intros k gkcCR st gkcCR' st' H L;
    [reflexivity|].
  destruct k as [|k]; [lia|]. simpl in *. unfold bind.
  destruct (pollOnce phases cr ctx gkcCR st) as [[g1|o] st1];
    [|discriminate H].
  apply (IH k _ _ _ _ H). lia.
Qed.

(** Every return out of the loop carries the zero result. *)
Lemma pollOnce_Break_zero gkcCR (st : State) res oerr st' :
  pollOnce phases cr ctx gkcCR st = (Break (Return res oerr), st') ->
  res = ctrl.zero.
Proof.
  intro H. run_in H. repeat branch H; now inversion H.
Qed.

(** The loop does not panic. *)
Lemma pollOnce_no_Panic gkcCR (st : State) msg st' :
  pollOnce phases cr ctx gkcCR st <> (Break (Panic msg), st').
Proof.
  intro H. run_in H. repeat branch H; discriminate H.
Qed.

(** The loop issues no create call. *)
Lemma pollOnce_created gkcCR (st : State) :
  created (calls (snd (pollOnce phases cr ctx gkcCR st))) = created (calls st).
Proof.
  destruct (pollOnce phases cr ctx gkcCR st) as [it st'] eqn:H.
  run_in H. repeat branch H; inversion H; subst; simpl;
    rewrite ?created_app; simpl; now rewrite ?app_nil_r.
Qed.

Lemma poll_created (n : nat) :
  forall gkcCR (st : State),
    created (calls (snd (poll phases cr ctx n gkcCR st))) = created (calls st).
Proof.
  induction n as [|n IH]; intros gkcCR st; [reflexivity|].
  simpl. unfold bind.
  pose proof (pollOnce_created gkcCR st) as H.
  destruct (pollOnce phases cr ctx gkcCR st) as [[g1|o] st1]; simpl in *.
  - now rewrite IH.
  - exact H.
Qed.

Lemma poll_Return_zero (n : nat) :
  forall gkcCR (st : State) res oerr st',
    poll phases cr ctx n gkcCR st = (Return res oerr, st') ->
    res = ctrl.zero.
Proof.
  induction n as [|n IH]; intros gkcCR st res oerr st' H; simpl in H.
  - discriminate H.
  - unfold bind in H.
    destruct (pollOnce phases cr ctx gkcCR st) as [[g1|o] st1] eqn:E.
    + now apply IH in H.
    + inversion H; subst. now apply pollOnce_Break_zero in E.
Qed.

Lemma poll_no_Panic (n : nat) :
  forall gkcCR (st : State) msg st',
    poll phases cr ctx n gkcCR st <> (Panic msg, st').
Proof.
  induction n as [|n IH]; intros gkcCR st msg st' H; simpl in H.
  - discriminate H.
  - unfold bind in H.
    destruct (pollOnce phases cr ctx gkcCR st) as [[g1|o] st1] eqn:E.
    + now apply IH in H.
    + inversion H; subst. now apply pollOnce_no_Panic in E.
Qed.

(** Cancellation received by the [select] ends the loop at once. *)
Lemma pollOnce_cancelled gkcCR (st : State) err w :
  context.Select ctx (world st) = (context.Done err, w) ->
  pollOnce phases cr ctx gkcCR st
    = (Break (Return ctrl.zero (Some err)), mkState w (calls st)).
Proof.
  intro E. run. now rewrite E.
Qed.

(** A failed query on a tick ends the loop with the error of the query. *)
Lemma pollOnce_query_error gkcCR (st : State) err w1 w2 :
  context.Select ctx (world st) = (context.TickerC, w1) ->
  GetCluster (GCP (cloud cr)) (zoneOf gkcCR) (clusterNameOf gkcCR) w1
    = (inr err, w2) ->
  pollOnce phases cr ctx gkcCR st
    = (Break (Return ctrl.zero (Some err)),
       mkState w2
         (calls st ++
          [CallGetCluster (zoneOf gkcCR) (clusterNameOf gkcCR);
           CallLogError err "error verifying cluster status"])).
Proof.
  intros E1 E2. run. rewrite E1. simpl. rewrite E2. simpl.
  now rewrite <- !app_assoc.
Qed.

(** [defer ticker.Stop()] adds nothing to what was persisted, notified or
    created. *)
Lemma deferred_log (o : Outcome) (st : @State W) :
  fst (deferred o st) = o /\
  persisted (calls (snd (deferred o st))) = persisted (calls st) /\
  notified (calls (snd (deferred o st))) = notified (calls st) /\
  created (calls (snd (deferred o st))) = created (calls st).
Proof.
  destruct o; run; rewrite ?persisted_app, ?notified_app, ?created_app;
    simpl; rewrite ?app_nil_r; auto.
Qed.

Section Accepted.

(** The store accepts every status write. *)
Hypothesis accepted :
  forall obj w, snd (fst (client.StatusUpdate (Client cr) obj w)) = None.

Ltac write :=
  match goal with
  | |- context [client.StatusUpdate ?c ?obj ?w] =>
      let E := fresh "E" in
      let A := fresh "A" in
      pose proof (accepted obj w) as A;
      destruct (client.StatusUpdate c obj w) as [[? ?] ?] eqn:E;
      simpl in A; subst; simpl
  end.

(** A tick on which the provider reports one of the four statuses that end
    the loop: Provisioning is written as on every tick, then the final
    phase, and [Reconcile] returns without an error. *)
Lemma pollOnce_terminal gkcCR (st : State) w1 c w2 :
  context.Select ctx (world st) = (context.TickerC, w1) ->
  GetCluster (GCP (cloud cr)) (zoneOf gkcCR) (clusterNameOf gkcCR) w1
    = (inl c, w2) ->
  terminal phases (container.Status c) = true ->
  exists st',
    pollOnce phases cr ctx gkcCR st = (Break (Return ctrl.zero None), st') /\
    persisted (calls st')
      = persisted (calls st) ++
        [ClusterStatusProvisioning;
         if String.eqb (container.Status c) ClusterStatusRunning
         then ClusterStatusRunning else ClusterStatusError] /\
    notified (calls st')
      = notified (calls st) ++
        [provisioningEvent;
         if String.eqb (container.Status c) ClusterStatusRunning
         then ("Normal", "ClusterRunning", "GCP Kubernetes Cluster running")
         else ("Warning", "ClusterNotRunning",
               ("GCP Kubernetes Cluster status is not running: "
                  ++ container.Status c)%string)] /\
    created (calls st') = created (calls st).
Proof.
  intros E1 E2 T. unfold terminal in T. run.
  rewrite E1. simpl. rewrite E2. simpl. write.
  destruct (String.eqb (container.Status c) ClusterStatusRunning) eqn:R;
    simpl in T; [|rewrite T]; write; eexists; (split; [reflexivity|]);
    simpl; rewrite !persisted_app, !notified_app, !created_app; simpl;
    rewrite <- ?app_assoc, ?app_nil_r; simpl; auto.
Qed.

End Accepted.

(** ** Reconcile *)

(** Down the creation path [Reconcile] is the poll loop, run from the state
    the path leaves, followed by the deferred stop of the ticker. *)
Lemma Reconcile_creating req (st : State) gkcCR' st' :
  creating phases cr req st gkcCR' st' ->
  forall n,
    Reconcile phases cr ctx n req st
      = bind (poll phases cr ctx n gkcCR') deferred st'.
Proof.
  intros (gkcCR & err & op & w1 & w2 & w3 & w4
          & E1 & E2 & E3 & E4 & E5 & ->) n.
  unfold requested in E4. unfold Reconcile.
  unfold updateStatus, Get, StatusUpdate, GCPGetCluster, GCPCreateCluster,
    Event, Info, LogError. unfold bind at 1, perform at 1. rewrite E1.
  unfold bind at 1, perform at 1. simpl. rewrite E2. rewrite E3.
  unfold bind at 1, emit at 1. unfold bind at 1, perform at 1. simpl.
  rewrite E4.
  unfold bind at 1, perform at 1. simpl.
  unfold bind at 1. unfold bind at 1, emit at 1. simpl. unfold ret at 1.
  unfold bind at 1, perform at 1. simpl. rewrite E5.
  unfold bind at 1, emit at 1. simpl.
  now rewrite <- !app_assoc.
Qed.

(** What the creation path has persisted, notified and created when the loop
    is entered. *)
Lemma creating_log req (st : State) gkcCR' st' :
  creating phases cr req st gkcCR' st' ->
  persisted (calls st') = persisted (calls st) ++ [ClusterStatusProvisioning] /\
  notified (calls st')
    = notified (calls st) ++
      [("Normal", "ClusterCreation", "GCP Kubernetes Cluster creating")] /\
  exists gkcCR w,
    client.Get (Client cr) (ctrl.NamespacedName req) (world st)
      = (inl gkcCR, w) /\
    created (calls st')
      = created (calls st) ++ [(zoneOf gkcCR, requested gkcCR)].
Proof.
  intros (gkcCR & err & op & w1 & w2 & w3 & w4
          & E1 & E2 & E3 & E4 & E5 & ->). simpl.
  rewrite persisted_app, notified_app, created_app. simpl.
  repeat split; eauto.
Qed.

(** C1.  The store holds the resource and the provider answers the query
    with an error that the classifier takes for not-found.  Then, however
    long the invocation is followed, [Reconcile] has issued exactly one
    create call, and that call carries the zone, the cluster name and the
    initial node count of the resource's spec.  When the provider accepts
    the create call and the store the status write, Provisioning is what has
    been persisted when the loop is entered, and from there on [Reconcile]
    is the poll loop: with no iteration run it is waiting in it. *)
Theorem Reconcile_absent_cluster_creates
        req (st : State) gkcCR err w1 w2 :
  client.Get (Client cr) (ctrl.NamespacedName req) (world st)
    = (inl gkcCR, w1) ->
  GetCluster (GCP (cloud cr)) (zoneOf gkcCR) (clusterNameOf gkcCR) w1
    = (inr err, w2) ->
  notFoundGCPResource err = Some true ->
  (forall n,
      created (calls (snd (Reconcile phases cr ctx n req st)))
        = created (calls st) ++
          [(benzaiten.Zone (benzaiten.Spec gkcCR),
            {| container.Name :=
                 benzaiten.ClusterName (benzaiten.Spec gkcCR);
               container.InitialNodeCount :=
                 benzaiten.InitialNodeCount (benzaiten.Spec gkcCR);
               container.Status := "" |})]) /\
  (forall op w3 gkcCR' w4,
      CreateCluster (GCP (cloud cr)) (zoneOf gkcCR) (requested gkcCR) w2
        = (inl op, w3) ->
      client.StatusUpdate (Client cr)
        (benzaiten.withStatus gkcCR ClusterStatusProvisioning)
        (record.Event (eventRecorder cr) gkcCR "Normal" "ClusterCreation"
                      "GCP Kubernetes Cluster creating" w3)
        = ((gkcCR', None), w4) ->
      exists st',
        persisted (calls st')
          = persisted (calls st) ++ [ClusterStatusProvisioning] /\
        (forall n,
            Reconcile phases cr ctx n req st
              = bind (poll phases cr ctx n gkcCR') deferred st') /\
        Reconcile phases cr ctx 0 req st = (Waiting, st')).
Proof.
  intros E1 E2 E3. split.
  - intro n.
    unfold Reconcile, updateStatus, Get, StatusUpdate, GCPGetCluster,
      GCPCreateCluster, Event, Info, LogError, bind, ret, emit, perform.
    simpl. rewrite E1. simpl. rewrite E2. simpl. rewrite E3. simpl.
    destruct (CreateCluster _ _ _ w2) as [[op|e] w3]; simpl.
    + destruct (client.StatusUpdate _ _ _) as [[g [e|]] w4]; simpl.
      * rewrite !created_app. simpl. now rewrite !app_nil_r.
      * match goal with
        | |- context [poll _ _ _ n g ?s] =>
            pose proof (poll_created n g s) as P;
            destruct (poll phases cr ctx n g s) as [o s'] eqn:E
        end.
        simpl in P.
        destruct (deferred_log o s') as (_ & _ & _ & D).
        rewrite D, P.
        rewrite !created_app. simpl. now rewrite !app_nil_r.
    + rewrite !created_app. simpl. now rewrite !app_nil_r.
  - intros op w3 gkcCR' w4 E4 E5.
    assert (C : creating phases cr req st gkcCR'
                  (mkState w4
                     (calls st ++
                      [CallGet (ctrl.NamespacedName req);
                       CallGetCluster (zoneOf gkcCR) (clusterNameOf gkcCR);
                       CallLogInfo
                         "gcpkubernetescluster not found, creating cluster...";
                       CallCreateCluster (zoneOf gkcCR) (requested gkcCR);
                       CallEvent gkcCR "Normal" "ClusterCreation"
                                 "GCP Kubernetes Cluster creating";
                       CallLogInfo "GCP Kubernetes Cluster creating";
                       CallStatusUpdate
                         (benzaiten.withStatus gkcCR
                            ClusterStatusProvisioning);
                       CallNewTicker (3 * time.Second)%Z]))).
    { exists gkcCR, err, op, w1, w2, w3, w4. repeat split; assumption. }
    eexists. split; [exact (proj1 (creating_log _ _ _ _ C))|].
    split; [exact (Reconcile_creating _ _ _ _ C)|].
    now rewrite (Reconcile_creating _ _ _ _ C 0).
Qed.

(** C3.  The store holds the resource and the provider's query finds the
    cluster, whatever status it reports for it.  Then [Reconcile] sends one
    status write, of the phase Running, and one notification, the Normal
    one that the cluster was found; and when the store accepts the write it
    returns the directive to requeue after 60 seconds, with no error. *)
Theorem Reconcile_existing_cluster
        n req (st : State) gkcCR gkc w1 w2 :
  client.Get (Client cr) (ctrl.NamespacedName req) (world st)
    = (inl gkcCR, w1) ->
  GetCluster (GCP (cloud cr)) (zoneOf gkcCR) (clusterNameOf gkcCR) w1
    = (inl gkc, w2) ->
  persisted (calls (snd (Reconcile phases cr ctx n req st)))
    = persisted (calls st) ++ [ClusterStatusRunning] /\
  notified (calls (snd (Reconcile phases cr ctx n req st)))
    = notified (calls st) ++
      [("Normal", "ClusterDetection", "GCP Kubernetes Cluster found")] /\
  (snd (fst (client.StatusUpdate (Client cr)
               (benzaiten.withStatus gkcCR ClusterStatusRunning)
               (record.Event (eventRecorder cr) gkcCR "Normal"
                  "ClusterDetection" "GCP Kubernetes Cluster found" w2)))
     = None ->
   fst (Reconcile phases cr ctx n req st)
     = Return {| ctrl.Requeue := false;
                 ctrl.RequeueAfter := (60 * time.Second)%Z |} None).
Proof.
  intros E1 E2. run. rewrite E1. simpl. rewrite E2. simpl.
  destruct (client.StatusUpdate _ _ _) as [[g [e|]] w3]; simpl;
    rewrite !persisted_app, !notified_app; simpl;
    rewrite ?app_nil_r; repeat split; auto; discriminate.
Qed.

(** C5.  The store reports that it does not hold the resource.  Then
    [Reconcile] returns the zero result and no error; it has logged one
    line, and sent no status write and no notification. *)
Theorem Reconcile_resource_absent n req (st : State) err w :
  client.Get (Client cr) (ctrl.NamespacedName req) (world st)
    = (inr err, w) ->
  kerr.IsNotFound err = true ->
  exists st',
    Reconcile phases cr ctx n req st = (Return ctrl.zero None, st') /\
    calls st' = calls st ++ [CallGet (ctrl.NamespacedName req);
                             CallLogInfo "gcpkubernetescluster not found"] /\
    persisted (calls st') = persisted (calls st) /\
    notified (calls st') = notified (calls st).
Proof.
  intros E1 E2. run. rewrite E1. simpl. rewrite E2. simpl.
  eexists. split; [reflexivity|]. simpl.
  rewrite <- !app_assoc, persisted_app, notified_app. simpl.
  now rewrite !app_nil_r.
Qed.

(** C2.  In the loop, an iteration that goes round again has sent exactly
    one status write, of Provisioning.  So after [k] ticks on which no
    status that ends the loop was seen, Provisioning has been written [k]
    times; and when the next tick sees such a status [Reconcile] leaves the
    loop with no error, the last phase written being Running for the status
    Running and Error for the statuses Error, Degraded and Unspecified.  (On
    that last tick too Provisioning is written before the final phase.) *)
Theorem poll_persists_every_tick_until_terminal
        (k : nat) gkcCR (st : State) gkcCR' st' w1 c w2 :
  benzaiten.distinct phases = true ->
  (forall obj w, snd (fst (client.StatusUpdate (Client cr) obj w)) = None) ->
  rounds phases cr ctx k gkcCR st = Some (gkcCR', st') ->
  context.Select ctx (world st') = (context.TickerC, w1) ->
  GetCluster (GCP (cloud cr)) (zoneOf gkcCR') (clusterNameOf gkcCR') w1
    = (inl c, w2) ->
  terminal phases (container.Status c) = true ->
  (forall g (s : State) g' s',
      pollOnce phases cr ctx g s = (Continue g', s') ->
      persisted (calls s') = persisted (calls s) ++ [ClusterStatusProvisioning])
  /\ persisted (calls st')
       = persisted (calls st) ++ repeat ClusterStatusProvisioning k
  /\ forall n, k < n ->
       exists st'' final,
         poll phases cr ctx n gkcCR st = (Return ctrl.zero None, st'') /\
         persisted (calls st'')
           = persisted (calls st') ++ [ClusterStatusProvisioning; final] /\
         last (persisted (calls st'')) ""%string = final /\
         (container.Status c = ClusterStatusRunning ->
          final = ClusterStatusRunning) /\
         (container.Status c = ClusterStatusError \/
          container.Status c = benzaiten.ClusterStatusDegraded phases \/
          container.Status c = benzaiten.ClusterStatusUnspecified phases ->
          final = ClusterStatusError).
Proof.
  intros D A R E1 E2 T. split; [|split].
  - intros g s g' s' H.
    apply pollOnce_round in H as (? & ? & ? & ? & _ & _ & _ & _ & ->).
    simpl. rewrite persisted_app. reflexivity.
  - exact (proj1 (rounds_log _ _ _ _ _ R)).
  - intros n L. replace n with (k + S (n - k - 1)) by lia.
    rewrite (poll_rounds _ _ _ _ _ _ R). simpl. unfold bind.
    destruct (pollOnce_terminal A _ _ _ _ _ E1 E2 T) as (s & P & Hp & _).
    rewrite P. exists s. eexists. split; [reflexivity|].
    split; [exact Hp|]. split.
    { rewrite Hp.
      match goal with
      | |- last (?l ++ [?a; ?b]) _ = _ =>
          change (l ++ [a; b]) with (l ++ [a] ++ [b])
      end.
      rewrite app_assoc. apply last_last. }
    split.
    + intros ->. now rewrite String.eqb_refl.
    + intro H.
      destruct (String.eqb (container.Status c) ClusterStatusRunning) eqn:Q;
        [|reflexivity].
      apply String.eqb_eq in Q. exfalso.
      unfold benzaiten.distinct in D. simpl in D.
      rewrite <- Q in D.
      destruct H as [H|[H|H]]; rewrite <- H in D;
        rewrite String.eqb_refl in D; simpl in D;
        rewrite ?andb_false_r, ?orb_true_r in D; simpl in D;
        rewrite ?andb_false_r in D; discriminate D.
Qed.

(** The outcome of the loop once [k] rounds are followed by an iteration
    that ends it. *)
Lemma poll_ends (k n : nat) gkcCR (st : State) gkcCR' st' o st'' :
  rounds phases cr ctx k gkcCR st = Some (gkcCR', st') ->
  pollOnce phases cr ctx gkcCR' st' = (Break o, st'') ->
  k < n ->
  poll phases cr ctx n gkcCR st = (o, st'').
Proof.
  intros R P L. replace n with (k + S (n - k - 1)) by lia.
  rewrite (poll_rounds _ _ _ _ _ _ R). simpl. unfold bind.
  now rewrite P.
Qed.

(** C6.  [Reconcile] has gone down the creation path and round the loop [k]
    times, and the [select] now receives the cancellation of the invocation.
    Then [Reconcile] returns the error of the context with the zero result;
    all it has done since the last round is stop the ticker, so what has
    been persisted and notified is what it was when the loop was waiting. *)
Theorem Reconcile_cancelled_while_waiting
        req (st : State) gkcCR st1 (k : nat) gkcCR' st2 err w :
  creating phases cr req st gkcCR st1 ->
  rounds phases cr ctx k gkcCR st1 = Some (gkcCR', st2) ->
  context.Select ctx (world st2) = (context.Done err, w) ->
  forall n, k < n ->
    exists st',
      Reconcile phases cr ctx n req st
        = (Return ctrl.zero (Some err), st') /\
      calls st' = calls st2 ++ [CallTickerStop] /\
      persisted (calls st') = persisted (calls st2) /\
      notified (calls st') = notified (calls st2).
Proof.
  intros C R E n L.
  rewrite (Reconcile_creating _ _ _ _ C). unfold bind.
  rewrite (poll_ends k n _ _ _ _ _ _ R (pollOnce_cancelled _ _ _ _ E) L).
  eexists. split; [reflexivity|]. simpl.
  rewrite persisted_app, notified_app. simpl. now rewrite !app_nil_r.
Qed.

(** A query error on the first get that the classifier answers [false] for
    is returned as it is, and nothing is created, persisted or notified. *)
Lemma Reconcile_query_error n req (st : State) gkcCR err w1 w2 :
  client.Get (Client cr) (ctrl.NamespacedName req) (world st)
    = (inl gkcCR, w1) ->
  GetCluster (GCP (cloud cr)) (zoneOf gkcCR) (clusterNameOf gkcCR) w1
    = (inr err, w2) ->
  notFoundGCPResource err = Some false ->
  Reconcile phases cr ctx n req st
    = (Return ctrl.zero (Some err),
       mkState w2
         (calls st ++
          [CallGet (ctrl.NamespacedName req);
           CallGetCluster (zoneOf gkcCR) (clusterNameOf gkcCR);
           CallLogError err "error getting gcpkubernetescluster"])).
Proof.
  intros E1 E2 E3. run. rewrite E1. simpl. rewrite E2. simpl. rewrite E3.
  simpl. now rewrite <- !app_assoc.
Qed.

(** A query error on a tick of the loop, whatever its message, is returned
    as it is, and the tick persists and notifies nothing. *)
Lemma Reconcile_poll_query_error
      req (st : State) gkcCR st1 (k : nat) gkcCR' st2 err w1 w2 :
  creating phases cr req st gkcCR st1 ->
  rounds phases cr ctx k gkcCR st1 = Some (gkcCR', st2) ->
  context.Select ctx (world st2) = (context.TickerC, w1) ->
  GetCluster (GCP (cloud cr)) (zoneOf gkcCR') (clusterNameOf gkcCR') w1
    = (inr err, w2) ->
  forall n, k < n ->
    exists st',
      Reconcile phases cr ctx n req st
        = (Return ctrl.zero (Some err), st') /\
      persisted (calls st') = persisted (calls st2) /\
      notified (calls st') = notified (calls st2).
Proof.
  intros C R E1 E2 n L.
  rewrite (Reconcile_creating _ _ _ _ C). unfold bind.
  rewrite (poll_ends k n _ _ _ _ _ _ R
             (pollOnce_query_error _ _ _ _ _ E1 E2) L).
  eexists. split; [reflexivity|]. simpl.
  rewrite !persisted_app, !notified_app. simpl. now rewrite !app_nil_r.
Qed.

(** Unless the classifier answers [true], [Reconcile] creates nothing. *)
Lemma Reconcile_creates_only_on_not_found
      n req (st : State) gkcCR err w1 w2 :
  client.Get (Client cr) (ctrl.NamespacedName req) (world st)
    = (inl gkcCR, w1) ->
  GetCluster (GCP (cloud cr)) (zoneOf gkcCR) (clusterNameOf gkcCR) w1
    = (inr err, w2) ->
  notFoundGCPResource err <> Some true ->
  created (calls (snd (Reconcile phases cr ctx n req st)))
    = created (calls st).
Proof.
  intros E1 E2 E3. run. rewrite E1. simpl. rewrite E2. simpl.
  destruct (notFoundGCPResource err) as [[|]|]; [congruence| |]; simpl;
    rewrite !created_app; simpl; now rewrite !app_nil_r.
Qed.

(** C9.  On an error whose message has no colon the classifier has no
    answer: the split yields one piece and taking the second one panics.
    When the provider answers the first query of [Reconcile] with such an
    error, the invocation panics. *)
Theorem notFoundGCPResource_panics_without_colon (err : error) :
  strings.Count (Error err) ":"%char = 0 ->
  length (strings.Split (fmt.Sprintf_v err) ":"%char) = 1 /\
  notFoundGCPResource err = None /\
  forall n req (st : State) gkcCR w1 w2,
    client.Get (Client cr) (ctrl.NamespacedName req) (world st)
      = (inl gkcCR, w1) ->
    GetCluster (GCP (cloud cr)) (zoneOf gkcCR) (clusterNameOf gkcCR) w1
      = (inr err, w2) ->
    exists msg st', Reconcile phases cr ctx n req st = (Panic msg, st').
Proof.
  intro H. split; [|split].
  - unfold fmt.Sprintf_v. now rewrite Split_length, H.
  - now apply notFoundGCPResource_panics.
  - intros n req st gkcCR w1 w2 E1 E2.
    apply notFoundGCPResource_panics in H.
    run. rewrite E1. simpl. rewrite E2. simpl. rewrite H. simpl.
    eauto.
Qed.

(** The result of every return of [Reconcile]: zero, or the directive of
    the path on which the cluster was found. *)
Lemma Reconcile_Return n req (st : State) res oerr st' :
  Reconcile phases cr ctx n req st = (Return res oerr, st') ->
  res = ctrl.zero \/
  (res = {| ctrl.Requeue := false;
            ctrl.RequeueAfter := (60 * time.Second)%Z |} /\
   oerr = None /\
   exists gkcCR gkc w1 w2,
     client.Get (Client cr) (ctrl.NamespacedName req) (world st)
       = (inl gkcCR, w1) /\
     GetCluster (GCP (cloud cr)) (zoneOf gkcCR) (clusterNameOf gkcCR) w1
       = (inl gkc, w2)).
Proof.
  intro H. run_in H.
  repeat branch H; inversion H; subst; auto;
    try (left;
         match goal with
         | P : poll _ _ _ _ _ _ = (Return _ _, _) |- _ =>
             exact (poll_Return_zero _ _ _ _ _ _ P)
         end).
  right. repeat split. do 4 eexists. split; [reflexivity|eassumption].
Qed.

(** C10.  A return of [Reconcile] that carries an error carries the zero
    result.  A return whose result is not zero carries the directive to
    requeue after 60 seconds and no error, and is the return of the path on
    which the store held the resource and the provider's query found the
    cluster.  Every return out of the poll loop carries the zero result, and
    on a tick that sees a status that ends the loop, the store accepting
    the writes, that return carries no error. *)
Theorem Reconcile_requeue_directive n req (st : State) res oerr st' :
  Reconcile phases cr ctx n req st = (Return res oerr, st') ->
  (oerr <> None -> res = ctrl.zero) /\
  (res <> ctrl.zero ->
   res = {| ctrl.Requeue := false;
            ctrl.RequeueAfter := (60 * time.Second)%Z |} /\
   oerr = None /\
   exists gkcCR gkc w1 w2,
     client.Get (Client cr) (ctrl.NamespacedName req) (world st)
       = (inl gkcCR, w1) /\
     GetCluster (GCP (cloud cr)) (zoneOf gkcCR) (clusterNameOf gkcCR) w1
       = (inl gkc, w2)) /\
  (forall g (s : State) res' oerr' s',
      pollOnce phases cr ctx g s = (Break (Return res' oerr'), s') ->
      res' = ctrl.zero) /\
  ((forall obj w, snd (fst (client.StatusUpdate (Client cr) obj w)) = None) ->
   forall g (s : State) w1 c w2,
     context.Select ctx (world s) = (context.TickerC, w1) ->
     GetCluster (GCP (cloud cr)) (zoneOf g) (clusterNameOf g) w1
       = (inl c, w2) ->
     terminal phases (container.Status c) = true ->
     fst (pollOnce phases cr ctx g s) = Break (Return ctrl.zero None)).
Proof.
  intro H. apply Reconcile_Return in H. repeat split.
  - intro E. destruct H as [H|(_ & H & _)]; [exact H|contradiction].
  - destruct H as [H|(H & _)]; [contradiction|exact H].
  - destruct H as [H|(_ & H & _)]; [contradiction|exact H].
  - destruct H as [H|(_ & _ & H)]; [contradiction|exact H].
  - intros g s res' oerr' s'. apply pollOnce_Break_zero.
  - intros A g s w1 c w2 E1 E2 T.
    destruct (pollOnce_terminal A _ _ _ _ _ E1 E2 T) as (s' & P & _).
    now rewrite P.
Qed.

(** C8, as amended.  [Reconcile] goes down the creation path, the loop goes
    round [k] times on statuses that do not end it, and the next tick sees
    the status Running, the store accepting every write.  Then [Reconcile]
    returns the zero result and no error, having issued one create call;
    it has persisted Provisioning after the create and once more on each of
    the [k + 1] ticks, then Running; and it has sent the notification of the
    creation, that of provisioning on each of the [k + 1] ticks, then that
    of running. *)
Theorem Reconcile_creates_then_running
        req (st : State) gkcCR st1 (k : nat) gkcCR' st2 w1 c w2 :
  (forall obj w, snd (fst (client.StatusUpdate (Client cr) obj w)) = None) ->
  creating phases cr req st gkcCR st1 ->
  rounds phases cr ctx k gkcCR st1 = Some (gkcCR', st2) ->
  context.Select ctx (world st2) = (context.TickerC, w1) ->
  GetCluster (GCP (cloud cr)) (zoneOf gkcCR') (clusterNameOf gkcCR') w1
    = (inl c, w2) ->
  container.Status c = ClusterStatusRunning ->
  forall n, k < n ->
    exists st',
      Reconcile phases cr ctx n req st = (Return ctrl.zero None, st') /\
      length (created (calls st')) = length (created (calls st)) + 1 /\
      persisted (calls st')
        = persisted (calls st) ++
          [ClusterStatusProvisioning] ++
          repeat ClusterStatusProvisioning k ++
          [ClusterStatusProvisioning; ClusterStatusRunning] /\
      notified (calls st')
        = notified (calls st) ++
          [("Normal", "ClusterCreation", "GCP Kubernetes Cluster creating")] ++
          repeat provisioningEvent k ++
          [provisioningEvent;
           ("Normal", "ClusterRunning", "GCP Kubernetes Cluster running")].
Proof.
  intros A C R E1 E2 S n L.
  assert (T : terminal phases (container.Status c) = true).
  { unfold terminal. now rewrite S, String.eqb_refl. }
  destruct (pollOnce_terminal A _ _ _ _ _ E1 E2 T) as (s & P & Hp & Hn & Hc).
  rewrite S, String.eqb_refl in Hp, Hn.
  destruct (rounds_log _ _ _ _ _ R) as (Rp & Rn & Rc).
  destruct (creating_log _ _ _ _ C) as (Cp & Cn & r & w & _ & Cc).
  rewrite (Reconcile_creating _ _ _ _ C). unfold bind.
  rewrite (poll_ends k n _ _ _ _ _ _ R P L).
  eexists. split; [reflexivity|]. simpl.
  rewrite persisted_app, notified_app, created_app. simpl.
  rewrite !app_nil_r, Hp, Hn, Hc, Rp, Rn, Rc, Cp, Cn, Cc.
  rewrite <- !app_assoc, length_app. simpl. auto.
Qed.

End Properties.

(** ** Scenarios on the scripted world *)

Lemma fake_creating (answers : list (container.Cluster + error))
      (cases : list context.Ready) :
  creating fake.phases fake.cr fake.req
    (fake.start (fake.script (inr fake.notFound :: answers) cases))
    (benzaiten.withStatus fake.demo "PROVISIONING")
    (fake.entered (fake.script (inr fake.notFound :: answers) cases)).
Proof.
  exists fake.demo, fake.notFound,
    {| container.OperationName := "operation-1" |}.
  do 4 eexists. repeat split.
Defined.

Lemma fake_accepted :
  forall obj w,
    snd (fst (client.StatusUpdate (Client fake.cr) obj w)) = None.
Proof.
  reflexivity.
Defined.

(** The provider answers not-found, then RUNNING on the first tick. *)
Lemma Reconcile_absent_cluster_creates_witness :
  notFoundGCPResource fake.notFound = Some true /\
  created
    (calls (snd (Reconcile fake.phases fake.cr fake.ctx 1 fake.req
                   (fake.start
                      (fake.script [inr fake.notFound;
                                    inl (fake.cluster "RUNNING")] [])))))
    = [("us-central1-a",
        {| container.Name := "demo";
           container.InitialNodeCount := 3;
           container.Status := "" |})] /\
  fst (Reconcile fake.phases fake.cr fake.ctx 0 fake.req
         (fake.start
            (fake.script [inr fake.notFound;
                          inl (fake.cluster "RUNNING")] [])))
    = Waiting.
Proof.
  destruct (Reconcile_absent_cluster_creates fake.phases fake.cr fake.ctx
              fake.req
              (fake.start
                 (fake.script [inr fake.notFound;
                               inl (fake.cluster "RUNNING")] []))
              fake.demo fake.notFound _ _ eq_refl eq_refl eq_refl)
    as [C P].
  split; [reflexivity|]. split; [exact (C 1)|].
  destruct (P _ _ _ _ eq_refl eq_refl) as (st' & _ & _ & E).
  now rewrite E.
Defined.

(** Two ticks on PROVISIONING, then ERROR. *)
Lemma poll_persists_every_tick_until_terminal_witness :
  exists st'',
    poll fake.phases fake.cr fake.ctx 3
         (benzaiten.withStatus fake.demo "PROVISIONING")
         (fake.start
            (fake.script [inl (fake.cluster "PROVISIONING");
                          inl (fake.cluster "PROVISIONING");
                          inl (fake.cluster "ERROR")] []))
      = (Return ctrl.zero None, st'') /\
    last (persisted (calls st'')) "" = "ERROR".
Proof.
  destruct (poll_persists_every_tick_until_terminal fake.phases fake.cr
              fake.ctx 2
              (benzaiten.withStatus fake.demo "PROVISIONING")
              (fake.start
                 (fake.script [inl (fake.cluster "PROVISIONING");
                               inl (fake.cluster "PROVISIONING");
                               inl (fake.cluster "ERROR")] []))
              _ _ _ (fake.cluster "ERROR") _
              eq_refl fake_accepted eq_refl eq_refl eq_refl eq_refl)
    as (_ & _ & H).
  destruct (H 3 (le_n 3)) as (st'' & final & E & _ & L & _ & F).
  exists st''. split; [exact E|].
  rewrite L. apply F. left. reflexivity.
Defined.

(** The provider finds the cluster, in the status ERROR. *)
Lemma Reconcile_existing_cluster_witness :
  persisted
    (calls (snd (Reconcile fake.phases fake.cr fake.ctx 0 fake.req
                   (fake.start
                      (fake.script [inl (fake.cluster "ERROR")] [])))))
    = ["RUNNING"] /\
  fst (Reconcile fake.phases fake.cr fake.ctx 0 fake.req
         (fake.start (fake.script [inl (fake.cluster "ERROR")] [])))
    = Return {| ctrl.Requeue := false;
                ctrl.RequeueAfter := (60 * time.Second)%Z |} None.
Proof.
  destruct (Reconcile_existing_cluster fake.phases fake.cr fake.ctx 0
              fake.req
              (fake.start (fake.script [inl (fake.cluster "ERROR")] []))
              fake.demo (fake.cluster "ERROR") _ _ eq_refl eq_refl)
    as (P & _ & R).
  split; [exact P|exact (R eq_refl)].
Defined.

Lemma Reconcile_resource_absent_witness :
  exists st',
    Reconcile fake.phases fake.cr fake.ctx 0 fake.req (fake.start fake.absent)
      = (Return ctrl.zero None, st') /\
    calls st' = calls (fake.start fake.absent) ++
                [CallGet (ctrl.NamespacedName fake.req);
                 CallLogInfo "gcpkubernetescluster not found"] /\
    persisted (calls st') = persisted (calls (fake.start fake.absent)) /\
    notified (calls st') = notified (calls (fake.start fake.absent)).
Proof.
  exact (Reconcile_resource_absent fake.phases fake.cr fake.ctx 0 fake.req
           (fake.start fake.absent) fake.gone fake.absent eq_refl eq_refl).
Defined.

(** One tick on PROVISIONING, then the invocation is cancelled. *)
Lemma Reconcile_cancelled_while_waiting_witness :
  exists st',
    Reconcile fake.phases fake.cr fake.ctx 2 fake.req
      (fake.start
         (fake.script [inr fake.notFound; inl (fake.cluster "PROVISIONING")]
                      [context.TickerC; context.Done fake.canceled]))
      = (Return ctrl.zero (Some fake.canceled), st') /\
    persisted (calls st') = ["PROVISIONING"; "PROVISIONING"].
Proof.
  destruct (Reconcile_cancelled_while_waiting fake.phases fake.cr fake.ctx
              fake.req _ _ _ 1 _ _ fake.canceled _
              (fake_creating [inl (fake.cluster "PROVISIONING")]
                             [context.TickerC; context.Done fake.canceled])
              eq_refl eq_refl 2 (le_n 2))
    as (st' & E & _ & P & _).
  exists st'. split; [exact E|exact P].
Defined.

(** The provider answers the first query with an error without a colon. *)
Lemma notFoundGCPResource_panics_without_colon_witness :
  notFoundGCPResource fake.deadline = None /\
  exists msg st',
    Reconcile fake.phases fake.cr fake.ctx 0 fake.req
      (fake.start (fake.script [inr fake.deadline] []))
      = (Panic msg, st').
Proof.
  destruct (notFoundGCPResource_panics_without_colon fake.phases fake.cr
              fake.ctx fake.deadline eq_refl) as (_ & N & P).
  split; [exact N|].
  exact (P 0 fake.req
           (fake.start (fake.script [inr fake.deadline] []))
           fake.demo _ _ eq_refl eq_refl).
Defined.

(** The provider finds the cluster: the one return with a directive. *)
Lemma Reconcile_requeue_directive_witness :
  fst (Reconcile fake.phases fake.cr fake.ctx 0 fake.req
         (fake.start (fake.script [inl (fake.cluster "RUNNING")] [])))
    = Return {| ctrl.Requeue := false;
                ctrl.RequeueAfter := (60 * time.Second)%Z |} None /\
  (forall g (s : State) res oerr s',
      pollOnce fake.phases fake.cr fake.ctx g s
        = (Break (Return res oerr), s') ->
      res = ctrl.zero).
Proof.
  split; [reflexivity|].
  exact (proj1 (proj2 (proj2
           (Reconcile_requeue_directive fake.phases fake.cr fake.ctx 0
              fake.req
              (fake.start (fake.script [inl (fake.cluster "RUNNING")] []))
              _ _ _ eq_refl)))).
Defined.

(** The scenario of the demo resource: not-found, then RUNNING on the first
    tick of the loop. *)
Lemma Reconcile_creates_then_running_witness :
  exists st',
    Reconcile fake.phases fake.cr fake.ctx 1 fake.req
      (fake.start
         (fake.script [inr fake.notFound; inl (fake.cluster "RUNNING")] []))
      = (Return ctrl.zero None, st') /\
    length (created (calls st')) = 1 /\
    persisted (calls st') = ["PROVISIONING"; "PROVISIONING"; "RUNNING"] /\
    notified (calls st')
      = [("Normal", "ClusterCreation", "GCP Kubernetes Cluster creating");
         ("Normal", "ClusterProvisioning",
          "GCP Kubernetes Cluster provisioning");
         ("Normal", "ClusterRunning", "GCP Kubernetes Cluster running")].
Proof.
  exact (Reconcile_creates_then_running fake.phases fake.cr fake.ctx
           fake.req _ _ _ 0 _ _ _ (fake.cluster "RUNNING") _
           fake_accepted
           (fake_creating [inl (fake.cluster "RUNNING")] [])
           eq_refl eq_refl eq_refl eq_refl 1 (le_n 1)).
Defined.

(** C8, as stated, fails on the scenario it describes.  With RUNNING
    reported on the first tick after the create, [Reconcile] returns the zero
    result and no error after one create call, but it has persisted three
    phases and sent three notifications, not two.  With RUNNING reported on
    the second tick it has persisted four and sent four. *)
Lemma Reconcile_creates_then_running_not_two :
  (let run := Reconcile fake.phases fake.cr fake.ctx 5 fake.req
                (fake.start
                   (fake.script [inr fake.notFound;
                                 inl (fake.cluster "RUNNING")] [])) in
   fst run = Return ctrl.zero None /\
   length (created (calls (snd run))) = 1 /\
   persisted (calls (snd run)) = ["PROVISIONING"; "PROVISIONING"; "RUNNING"] /\
   map (fun e => (fst (fst e), snd (fst e))) (notified (calls (snd run)))
     = [("Normal", "ClusterCreation"); ("Normal", "ClusterProvisioning");
        ("Normal", "ClusterRunning")] /\
   ~ (persisted (calls (snd run)) = ["PROVISIONING"; "RUNNING"] /\
      map (fun e => (fst (fst e), snd (fst e))) (notified (calls (snd run)))
        = [("Normal", "ClusterCreation"); ("Normal", "ClusterRunning")])) /\
  (let run := Reconcile fake.phases fake.cr fake.ctx 5 fake.req
                (fake.start
                   (fake.script [inr fake.notFound;
                                 inl (fake.cluster "PROVISIONING");
                                 inl (fake.cluster "RUNNING")] [])) in
   fst run = Return ctrl.zero None /\
   length (persisted (calls (snd run))) = 4 /\
   length (notified (calls (snd run))) = 4).
Proof.
  split.
  - repeat split. intros [H _]. vm_compute in H. discriminate H.
  - repeat split.
Qed.

(** C4, at a message without a colon.  The split of the message has one
    piece, and the classifier does not answer [false]: it panics. *)
Lemma notFoundGCPResource_deadline :
  strings.Split (fmt.Sprintf_v fake.deadline) ":"%char
    = ["context deadline exceeded"] /\
  notFoundGCPResource fake.deadline = None /\
  notFoundGCPResource fake.deadline <> Some false.
Proof.
  repeat split. discriminate.
Qed.

(** C7, at a query error without a colon in its message.  [Reconcile] does
    not return the error of the first query: it panics in the classifier,
    having called the store and the provider once each. *)
Lemma Reconcile_deadline_panics (n : nat) :
  Reconcile fake.phases fake.cr fake.ctx n fake.req
    (fake.start (fake.script [inr fake.deadline] []))
  = (Panic "index out of range [1] with length 1",
     mkState (fake.script [] [])
       [CallGet (ctrl.NamespacedName fake.req);
        CallGetCluster "us-central1-a" "demo"]).
Proof.
  reflexivity.
Qed.


(** * Beyond the claims *)

(** ** More on the log *)

Lemma written_app (l1 l2 : list Call) :
  written (l1 ++ l2) = written l1 ++ written l2.
Proof.
  induction l1 as [|c l1 IH]; [reflexivity|].
  destruct c; simpl; rewrite ?IH; reflexivity.
Qed.

Lemma queried_app (l1 l2 : list Call) :
  queried (l1 ++ l2) = queried l1 ++ queried l2.
Proof.
  induction l1 as [|c l1 IH]; [reflexivity|].
  destruct c; simpl; rewrite ?IH; reflexivity.
Qed.

Lemma started_app (l1 l2 : list Call) :
  started (l1 ++ l2) = started l1 + started l2.
Proof.
  induction l1 as [|c l1 IH]; [reflexivity|].
  destruct c; simpl; rewrite ?IH; reflexivity.
Qed.

Lemma stopped_app (l1 l2 : list Call) :
  stopped (l1 ++ l2) = stopped l1 + stopped l2.
Proof.
  induction l1 as [|c l1 IH]; [reflexivity|].
  destruct c; simpl; rewrite ?IH; reflexivity.
Qed.

(** What is persisted is the phase of what is written. *)
Lemma persisted_written (log : list Call) :
  persisted log
    = map (fun obj => benzaiten.Phase (benzaiten.Status obj)) (written log).
Proof.
  induction log as [|c log IH]; [reflexivity|].
  destruct c; simpl; rewrite ?IH; reflexivity.
Qed.

Lemma orderly_nil (phases : benzaiten.Phases) : orderly phases [].
Proof.
  repeat split. constructor.
Qed.

Lemma orderly_app (phases : benzaiten.Phases) (l1 l2 : list Call) :
  orderly phases l1 -> orderly phases l2 -> orderly phases (l1 ++ l2).
Proof.
  intros (N1 & F1 & C1 & S1 & T1) (N2 & F2 & C2 & S2 & T2).
  unfold orderly.
  rewrite notified_app, persisted_app, created_app, started_app, stopped_app,
    !length_app, N1, N2, C1, C2, S1, S2, T1, T2.
  repeat split. now apply Forall_app.
Qed.

Section Coverage.

Context {W : Type}.

Variable phases : benzaiten.Phases.
Variable cr : GCPKubernetesClusterReconciler W.
Variable ctx : context.Context W.

Abbreviation ClusterStatusProvisioning :=
  (benzaiten.ClusterStatusProvisioning phases).
Abbreviation ClusterStatusRunning := (benzaiten.ClusterStatusRunning phases).
Abbreviation ClusterStatusError := (benzaiten.ClusterStatusError phases).
Abbreviation zoneOf gkcCR := (benzaiten.Zone (benzaiten.Spec gkcCR)).
Abbreviation clusterNameOf gkcCR :=
  (benzaiten.ClusterName (benzaiten.Spec gkcCR)).

Ltac run :=
  unfold Reconcile, pollOnce, deferred, updateStatus, Get, StatusUpdate,
    GCPGetCluster, GCPCreateCluster, Event, Info, LogError,
    bind, ret, emit, perform, receive; simpl.

Ltac run_in H :=
  unfold Reconcile, pollOnce, deferred, updateStatus, Get, StatusUpdate,
    GCPGetCluster, GCPCreateCluster, Event, Info, LogError,
    bind, ret, emit, perform, receive in H; simpl in H.

Ltac branch H :=
  match type of H with
  | context [match ?x with _ => _ end] =>
      lazymatch x with
      | context [match _ with _ => _ end] => fail
      | _ => destruct x eqn:?; simpl in H
      end
  end.

(** The calls of a run, brought to the form [calls st ++ added]. *)
Ltac added :=
  simpl; rewrite <- ?app_assoc; simpl;
  eexists; split; [first [reflexivity | symmetry; apply app_nil_r]|].

Ltac writables :=
  repeat (apply Forall_cons; [unfold writable; auto|]); try apply Forall_nil.

(** The calls of one iteration of the loop are orderly. *)
Lemma pollOnce_orderly gkcCR (st : State) :
  exists added,
    calls (snd (pollOnce phases cr ctx gkcCR st)) = calls st ++ added /\
    orderly phases added.
Proof.
  destruct (pollOnce phases cr ctx gkcCR st) as [it st'] eqn:H.
  run_in H.
  repeat branch H; inversion H; subst; added;
    unfold orderly; simpl; repeat split; writables.
Qed.

(** So are the calls of the loop, however long it is run. *)
Lemma poll_orderly (n : nat) :
  forall gkcCR (st : State),
    exists added,
      calls (snd (poll phases cr ctx n gkcCR st)) = calls st ++ added /\
      orderly phases added.
Proof.
  induction n as [|n IH]; intros gkcCR st.
  - exists []. split; [symmetry; apply app_nil_r|apply orderly_nil].
  - simpl. unfold bind.
    destruct (pollOnce_orderly gkcCR st) as (a1 & E1 & O1).
    destruct (pollOnce phases cr ctx gkcCR st) as [[g1|o] st1]; simpl in E1.
    + destruct (IH g1 st1) as (a2 & E2 & O2).
      exists (a1 ++ a2). rewrite E2, E1, app_assoc.
      split; [reflexivity|now apply orderly_app].
    + exists a1. split; [exact E1|exact O1].
Qed.

(** The calls of a whole invocation. *)
Lemma Reconcile_adds n req (st : State) :
  exists added,
    calls (snd (Reconcile phases cr ctx n req st)) = calls st ++ added /\
    length (notified added) = length (persisted added) /\
    Forall (writable phases) (persisted added) /\
    (created added = [] \/
     exists gkcCR w,
       client.Get (Client cr) (ctrl.NamespacedName req) (world st)
         = (inl gkcCR, w) /\
       created added = [(zoneOf gkcCR, requested gkcCR)]) /\
    match fst (Reconcile phases cr ctx n req st) with
    | Waiting => started added = 1 /\ stopped added = 0
    | _ => started added = stopped added /\ started added <= 1
    end.
Proof.
  destruct (Reconcile phases cr ctx n req st) as [o st'] eqn:H.
  run_in H.
  repeat branch H; inversion H; subst;
    try match goal with
        | P : poll _ _ _ _ ?g ?s = (_, _) |- _ =>
            let a := fresh "a" in
            let E := fresh "E" in
            destruct (poll_orderly n g s) as (a & E & (? & ? & ? & ? & ?));
            rewrite P in E; simpl in E; simpl; rewrite E
        end;
    added; simpl;
    rewrite ?notified_app, ?persisted_app, ?created_app, ?started_app,
      ?stopped_app, ?length_app; simpl;
    repeat match goal with
           | |- _ /\ _ => split
           end;
    try lia; try congruence; writables.
  all: try (rewrite ?app_nil_r; assumption).
  all: try (left; reflexivity).
  all: try (right; do 2 eexists; split; [reflexivity|];
            rewrite ?app_nil_r; unfold requested; congruence).
  all: try (rewrite ?app_nil_r; apply Forall_app; split; [assumption|writables]).
Qed.

(** ** Invariants of every invocation *)

(** X9.  Whatever the world answers and however long the invocation is
    followed, [Reconcile] has sent as many notifications as status writes:
    every write comes with its notification. *)
Theorem Reconcile_notifies_as_often_as_it_writes n req (st : State) :
  length (notified (calls (snd (Reconcile phases cr ctx n req st))))
    + length (persisted (calls st))
  = length (persisted (calls (snd (Reconcile phases cr ctx n req st))))
    + length (notified (calls st)).
Proof.
  destruct (Reconcile_adds n req st) as (a & E & N & _).
  rewrite E, notified_app, persisted_app, !length_app. lia.
Qed.

(** X10.  The phases that [Reconcile] writes are Provisioning, Running and
    Error: no other phase, and no status string of the provider, reaches
    the store. *)
Theorem Reconcile_writes_three_phases n req (st : State) :
  exists added,
    persisted (calls (snd (Reconcile phases cr ctx n req st)))
      = persisted (calls st) ++ added /\
    Forall (fun p => p = ClusterStatusProvisioning \/
                     p = ClusterStatusRunning \/
                     p = ClusterStatusError) added.
Proof.
  destruct (Reconcile_adds n req st) as (a & E & _ & F & _).
  exists (persisted a). rewrite E, persisted_app. split; [reflexivity|exact F].
Qed.

(** X11.  An invocation issues at most one create call, and a create call
    it issues is for the zone, the cluster name and the initial node count
    of the resource the store handed out. *)
Theorem Reconcile_creates_at_most_once n req (st : State) :
  created (calls (snd (Reconcile phases cr ctx n req st)))
    = created (calls st) \/
  exists gkcCR w,
    client.Get (Client cr) (ctrl.NamespacedName req) (world st)
      = (inl gkcCR, w) /\
    created (calls (snd (Reconcile phases cr ctx n req st)))
      = created (calls st) ++
        [(benzaiten.Zone (benzaiten.Spec gkcCR),
          {| container.Name :=
               benzaiten.ClusterName (benzaiten.Spec gkcCR);
             container.InitialNodeCount :=
               benzaiten.InitialNodeCount (benzaiten.Spec gkcCR);
             container.Status := "" |})].
Proof.
  destruct (Reconcile_adds n req st) as (a & E & _ & _ & [C|C] & _);
    rewrite E, created_app.
  - left. now rewrite C, app_nil_r.
  - right. destruct C as (gkcCR & w & G & C). exists gkcCR, w.
    split; [exact G|]. now rewrite C.
Qed.

(** X12.  An invocation starts at most one ticker.  While it is in the poll
    loop that ticker runs; once it has returned or panicked, every ticker it
    started has been stopped. *)
Theorem Reconcile_stops_its_ticker n req (st : State) :
  started (calls (snd (Reconcile phases cr ctx n req st)))
    <= started (calls st) + 1 /\
  match fst (Reconcile phases cr ctx n req st) with
  | Waiting =>
      started (calls (snd (Reconcile phases cr ctx n req st)))
        = started (calls st) + 1 /\
      stopped (calls (snd (Reconcile phases cr ctx n req st)))
        = stopped (calls st)
  | _ =>
      started (calls (snd (Reconcile phases cr ctx n req st)))
        + stopped (calls st)
      = stopped (calls (snd (Reconcile phases cr ctx n req st)))
        + started (calls st)
  end.
Proof.
  destruct (Reconcile_adds n req st) as (a & E & _ & _ & _ & T).
  rewrite E, started_app, stopped_app.
  destruct (fst (Reconcile phases cr ctx n req st)); lia.
Qed.

(** ** The other ways out of an invocation *)

(** X1.  The store fails with an error that is not its not-found.  Then
    [Reconcile] returns that error with the zero result, and the call to the
    store is the only call it has made: the provider is not asked. *)
Theorem Reconcile_store_error n req (st : State) err w :
  client.Get (Client cr) (ctrl.NamespacedName req) (world st)
    = (inr err, w) ->
  kerr.IsNotFound err = false ->
  Reconcile phases cr ctx n req st
    = (Return ctrl.zero (Some err),
       mkState w (calls st ++ [CallGet (ctrl.NamespacedName req)])).
Proof.
  intros E1 E2. run. rewrite E1. simpl. now rewrite E2.
Qed.

(** X2.  The provider turns the create call down.  Then [Reconcile] returns
    the error of the create call with the zero result; it has sent no status
    write and no notification, and it has not entered the poll loop. *)
Theorem Reconcile_create_refused n req (st : State) gkcCR err w1 w2 cerr w3 :
  client.Get (Client cr) (ctrl.NamespacedName req) (world st)
    = (inl gkcCR, w1) ->
  GetCluster (GCP (cloud cr)) (zoneOf gkcCR) (clusterNameOf gkcCR) w1
    = (inr err, w2) ->
  notFoundGCPResource err = Some true ->
  CreateCluster (GCP (cloud cr)) (zoneOf gkcCR) (requested gkcCR) w2
    = (inr cerr, w3) ->
  exists st',
    Reconcile phases cr ctx n req st = (Return ctrl.zero (Some cerr), st') /\
    calls st'
      = calls st ++
        [CallGet (ctrl.NamespacedName req);
         CallGetCluster (zoneOf gkcCR) (clusterNameOf gkcCR);
         CallLogInfo "gcpkubernetescluster not found, creating cluster...";
         CallCreateCluster (zoneOf gkcCR) (requested gkcCR);
         CallLogError cerr "error creating gcpkubernetescluster"] /\
    persisted (calls st') = persisted (calls st) /\
    notified (calls st') = notified (calls st) /\
    started (calls st') = started (calls st).
Proof.
  intros E1 E2 E3 E4. unfold requested in E4.
  run. rewrite E1. simpl. rewrite E2. simpl. rewrite E3. simpl.
  rewrite E4. simpl. eexists. split; [reflexivity|]. simpl.
  rewrite <- !app_assoc. simpl.
  rewrite persisted_app, notified_app, started_app. simpl.
  rewrite !app_nil_r. repeat split. lia.
Qed.

(** X3.  The provider has accepted the create call and the store refuses
    the write of Provisioning.  Then [Reconcile] returns the error of the
    store with the zero result.  The cluster has been asked for and the
    creation notified, but the poll loop is not entered: no ticker is
    started and the provider is not queried again. *)
Theorem Reconcile_first_write_refused
        n req (st : State) gkcCR err w1 w2 op w3 gkcCR' uerr w4 :
  client.Get (Client cr) (ctrl.NamespacedName req) (world st)
    = (inl gkcCR, w1) ->
  GetCluster (GCP (cloud cr)) (zoneOf gkcCR) (clusterNameOf gkcCR) w1
    = (inr err, w2) ->
  notFoundGCPResource err = Some true ->
  CreateCluster (GCP (cloud cr)) (zoneOf gkcCR) (requested gkcCR) w2
    = (inl op, w3) ->
  client.StatusUpdate (Client cr)
    (benzaiten.withStatus gkcCR ClusterStatusProvisioning)
    (record.Event (eventRecorder cr) gkcCR "Normal" "ClusterCreation"
                  "GCP Kubernetes Cluster creating" w3)
    = ((gkcCR', Some uerr), w4) ->
  exists st',
    Reconcile phases cr ctx n req st = (Return ctrl.zero (Some uerr), st') /\
    created (calls st')
      = created (calls st) ++ [(zoneOf gkcCR, requested gkcCR)] /\
    notified (calls st')
      = notified (calls st) ++
        [("Normal", "ClusterCreation", "GCP Kubernetes Cluster creating")] /\
    persisted (calls st')
      = persisted (calls st) ++ [ClusterStatusProvisioning] /\
    queried (calls st')
      = queried (calls st) ++ [(zoneOf gkcCR, clusterNameOf gkcCR)] /\
    started (calls st') = started (calls st).
Proof.
  intros E1 E2 E3 E4 E5. unfold requested in E4.
  run. rewrite E1. simpl. rewrite E2. simpl. rewrite E3. simpl.
  rewrite E4. simpl. rewrite E5. simpl.
  eexists. split; [reflexivity|]. simpl.
  rewrite <- !app_assoc. simpl.
  rewrite persisted_app, notified_app, created_app, queried_app, started_app.
  simpl. repeat split. lia.
Qed.

(** X4.  The provider's query finds the cluster and the store refuses the
    write of Running.  Then [Reconcile] returns the error of the store with
    the zero result: it does not ask to be requeued. *)
Theorem Reconcile_found_write_refused
        n req (st : State) gkcCR gkc w1 w2 gkcCR' uerr w3 :
  client.Get (Client cr) (ctrl.NamespacedName req) (world st)
    = (inl gkcCR, w1) ->
  GetCluster (GCP (cloud cr)) (zoneOf gkcCR) (clusterNameOf gkcCR) w1
    = (inl gkc, w2) ->
  client.StatusUpdate (Client cr)
    (benzaiten.withStatus gkcCR ClusterStatusRunning)
    (record.Event (eventRecorder cr) gkcCR "Normal" "ClusterDetection"
                  "GCP Kubernetes Cluster found" w2)
    = ((gkcCR', Some uerr), w3) ->
  exists st',
    Reconcile phases cr ctx n req st = (Return ctrl.zero (Some uerr), st') /\
    calls st'
      = calls st ++
        [CallGet (ctrl.NamespacedName req);
         CallGetCluster (zoneOf gkcCR) (clusterNameOf gkcCR);
         CallEvent gkcCR "Normal" "ClusterDetection"
                   "GCP Kubernetes Cluster found";
         CallLogInfo "GCP Kubernetes Cluster found";
         CallStatusUpdate (benzaiten.withStatus gkcCR ClusterStatusRunning);
         CallLogError uerr "error updating gcpkubernetescluster status"].
Proof.
  intros E1 E2 E3.
  run. rewrite E1. simpl. rewrite E2. simpl. rewrite E3. simpl.
  eexists. split; [reflexivity|]. simpl. now rewrite <- !app_assoc.
Qed.

(** ** The other ways out of the loop *)

(** A tick on which the store refuses the write of Provisioning. *)
Lemma pollOnce_write_refused gkcCR (st : State) w1 c w2 gkcCR' uerr w3 :
  context.Select ctx (world st) = (context.TickerC, w1) ->
  GetCluster (GCP (cloud cr)) (zoneOf gkcCR) (clusterNameOf gkcCR) w1
    = (inl c, w2) ->
  client.StatusUpdate (Client cr)
    (benzaiten.withStatus gkcCR ClusterStatusProvisioning)
    (record.Event (eventRecorder cr) gkcCR "Normal" "ClusterProvisioning"
                  "GCP Kubernetes Cluster provisioning" w2)
    = ((gkcCR', Some uerr), w3) ->
  pollOnce phases cr ctx gkcCR st
    = (Break (Return ctrl.zero (Some uerr)),
       mkState w3
         (calls st ++
          [CallGetCluster (zoneOf gkcCR) (clusterNameOf gkcCR);
           CallEvent gkcCR "Normal" "ClusterProvisioning"
                     "GCP Kubernetes Cluster provisioning";
           CallStatusUpdate
             (benzaiten.withStatus gkcCR ClusterStatusProvisioning);
           CallLogError uerr "error updating gcpkubernetescluster status"])).
Proof.
  intros E1 E2 E3. run. rewrite E1. simpl. rewrite E2. simpl. rewrite E3.
  simpl. now rewrite <- !app_assoc.
Qed.

(** A tick that sees a status that ends the loop, on which the store
    refuses the last write. *)
Lemma pollOnce_final_write_refused
      gkcCR (st : State) w1 c w2 g1 w3 g2 uerr w4 :
  context.Select ctx (world st) = (context.TickerC, w1) ->
  GetCluster (GCP (cloud cr)) (zoneOf gkcCR) (clusterNameOf gkcCR) w1
    = (inl c, w2) ->
  terminal phases (container.Status c) = true ->
  client.StatusUpdate (Client cr)
    (benzaiten.withStatus gkcCR ClusterStatusProvisioning)
    (record.Event (eventRecorder cr) gkcCR "Normal" "ClusterProvisioning"
                  "GCP Kubernetes Cluster provisioning" w2)
    = ((g1, None), w3) ->
  client.StatusUpdate (Client cr)
    (benzaiten.withStatus g1 (finalPhase phases (container.Status c)))
    (record.Event (eventRecorder cr) g1
       (fst (fst (finalEvent phases (container.Status c))))
       (snd (fst (finalEvent phases (container.Status c))))
       (snd (finalEvent phases (container.Status c))) w3)
    = ((g2, Some uerr), w4) ->
  exists st',
    pollOnce phases cr ctx gkcCR st
      = (Break (Return ctrl.zero (Some uerr)), st') /\
    persisted (calls st')
      = persisted (calls st) ++
        [ClusterStatusProvisioning;
         finalPhase phases (container.Status c)] /\
    notified (calls st')
      = notified (calls st) ++
        [provisioningEvent; finalEvent phases (container.Status c)].
Proof.
  intros E1 E2 T E3 E4. unfold terminal in T.
  unfold finalPhase, finalEvent in *. run.
  rewrite E1. simpl. rewrite E2. simpl. rewrite E3. simpl.
  destruct (String.eqb (container.Status c) ClusterStatusRunning) eqn:R;
    simpl in T, E4; simpl; [|rewrite T; simpl]; rewrite E4; simpl;
    eexists; (split; [reflexivity|]); simpl;
    rewrite !persisted_app, !notified_app; simpl;
    rewrite <- ?app_assoc, ?app_nil_r; simpl; auto.
Qed.

(** X5.  In the poll loop the store refuses the write of Provisioning of a
    tick.  Then [Reconcile] returns the error of the store with the zero
    result, whatever status the provider reported on that tick: a cluster
    seen running is neither notified nor written as Running. *)
Theorem Reconcile_tick_write_refused
        req (st : State) gkcCR st1 (k : nat) gkcCR' st2 w1 c w2 g1 uerr w3 :
  creating phases cr req st gkcCR st1 ->
  rounds phases cr ctx k gkcCR st1 = Some (gkcCR', st2) ->
  context.Select ctx (world st2) = (context.TickerC, w1) ->
  GetCluster (GCP (cloud cr)) (zoneOf gkcCR') (clusterNameOf gkcCR') w1
    = (inl c, w2) ->
  client.StatusUpdate (Client cr)
    (benzaiten.withStatus gkcCR' ClusterStatusProvisioning)
    (record.Event (eventRecorder cr) gkcCR' "Normal" "ClusterProvisioning"
                  "GCP Kubernetes Cluster provisioning" w2)
    = ((g1, Some uerr), w3) ->
  forall n, k < n ->
    exists st',
      Reconcile phases cr ctx n req st
        = (Return ctrl.zero (Some uerr), st') /\
      persisted (calls st')
        = persisted (calls st2) ++ [ClusterStatusProvisioning] /\
      notified (calls st') = notified (calls st2) ++ [provisioningEvent].
Proof.
  intros C R E1 E2 E3 n L.
  rewrite (Reconcile_creating _ _ _ _ _ _ _ C). unfold bind.
  rewrite (poll_ends _ _ _ k n _ _ _ _ _ _ R
             (pollOnce_write_refused _ _ _ _ _ _ _ _ E1 E2 E3) L).
  eexists. split; [reflexivity|]. simpl.
  rewrite !persisted_app, !notified_app. simpl.
  now rewrite !app_nil_r.
Qed.

(** X6.  In the poll loop a tick sees a status that ends the loop and the
    store refuses the write of the final phase.  Then [Reconcile] returns
    the error of the store with the zero result; the notification of the
    final phase has been sent all the same, before the write. *)
Theorem Reconcile_final_write_refused
        req (st : State) gkcCR st1 (k : nat) gkcCR' st2
        w1 c w2 g1 w3 g2 uerr w4 :
  creating phases cr req st gkcCR st1 ->
  rounds phases cr ctx k gkcCR st1 = Some (gkcCR', st2) ->
  context.Select ctx (world st2) = (context.TickerC, w1) ->
  GetCluster (GCP (cloud cr)) (zoneOf gkcCR') (clusterNameOf gkcCR') w1
    = (inl c, w2) ->
  terminal phases (container.Status c) = true ->
  client.StatusUpdate (Client cr)
    (benzaiten.withStatus gkcCR' ClusterStatusProvisioning)
    (record.Event (eventRecorder cr) gkcCR' "Normal" "ClusterProvisioning"
                  "GCP Kubernetes Cluster provisioning" w2)
    = ((g1, None), w3) ->
  client.StatusUpdate (Client cr)
    (benzaiten.withStatus g1 (finalPhase phases (container.Status c)))
    (record.Event (eventRecorder cr) g1
       (fst (fst (finalEvent phases (container.Status c))))
       (snd (fst (finalEvent phases (container.Status c))))
       (snd (finalEvent phases (container.Status c))) w3)
    = ((g2, Some uerr), w4) ->
  forall n, k < n ->
    exists st',
      Reconcile phases cr ctx n req st
        = (Return ctrl.zero (Some uerr), st') /\
      persisted (calls st')
        = persisted (calls st2) ++
          [ClusterStatusProvisioning;
           finalPhase phases (container.Status c)] /\
      notified (calls st')
        = notified (calls st2) ++
          [provisioningEvent; finalEvent phases (container.Status c)].
Proof.
  intros C R E1 E2 T E3 E4 n L.
  destruct (pollOnce_final_write_refused _ _ _ _ _ _ _ _ _ _
              E1 E2 T E3 E4) as (s & P & Hp & Hn).
  rewrite (Reconcile_creating _ _ _ _ _ _ _ C). unfold bind.
  rewrite (poll_ends _ _ _ k n _ _ _ _ _ _ R P L).
  eexists. split; [reflexivity|]. simpl.
  rewrite !persisted_app, !notified_app. simpl.
  now rewrite !app_nil_r, Hp, Hn.
Qed.

(** X7.  [Reconcile] goes down the creation path, the loop goes round [k]
    times, and the next tick sees a status other than Running that ends the
    loop: Error, Degraded or Unspecified.  The store accepting every write,
    [Reconcile] returns the zero result and no error; the last phase it has
    written is Error, and its last notification is a Warning whose message
    ends in the status the provider reported. *)
Theorem Reconcile_creates_then_not_running
        req (st : State) gkcCR st1 (k : nat) gkcCR' st2 w1 c w2 :
  (forall obj w, snd (fst (client.StatusUpdate (Client cr) obj w)) = None) ->
  creating phases cr req st gkcCR st1 ->
  rounds phases cr ctx k gkcCR st1 = Some (gkcCR', st2) ->
  context.Select ctx (world st2) = (context.TickerC, w1) ->
  GetCluster (GCP (cloud cr)) (zoneOf gkcCR') (clusterNameOf gkcCR') w1
    = (inl c, w2) ->
  container.Status c <> ClusterStatusRunning ->
  container.Status c = ClusterStatusError \/
  container.Status c = benzaiten.ClusterStatusDegraded phases \/
  container.Status c = benzaiten.ClusterStatusUnspecified phases ->
  forall n, k < n ->
    exists st',
      Reconcile phases cr ctx n req st = (Return ctrl.zero None, st') /\
      persisted (calls st')
        = persisted (calls st) ++
          [ClusterStatusProvisioning] ++
          repeat ClusterStatusProvisioning k ++
          [ClusterStatusProvisioning; ClusterStatusError] /\
      notified (calls st')
        = notified (calls st) ++
          [("Normal", "ClusterCreation", "GCP Kubernetes Cluster creating")] ++
          repeat provisioningEvent k ++
          [provisioningEvent;
           ("Warning", "ClusterNotRunning",
            ("GCP Kubernetes Cluster status is not running: "
               ++ container.Status c)%string)].
Proof.
  intros A C R E1 E2 NR S n L.
  apply String.eqb_neq in NR.
  assert (T : terminal phases (container.Status c) = true).
  { unfold terminal.
    destruct S as [S|[S|S]]; rewrite S at 2 3 4; rewrite String.eqb_refl;
      now rewrite ?orb_true_r. }
  destruct (pollOnce_terminal _ _ _ A _ _ _ _ _ E1 E2 T)
    as (s & P & Hp & Hn & _).
  rewrite NR in Hp, Hn.
  destruct (rounds_log _ _ _ _ _ _ _ _ R) as (Rp & Rn & _).
  destruct (creating_log _ _ _ _ _ _ C) as (Cp & Cn & _).
  rewrite (Reconcile_creating _ _ _ _ _ _ _ C). unfold bind.
  rewrite (poll_ends _ _ _ k n _ _ _ _ _ _ R P L).
  eexists. split; [reflexivity|]. simpl.
  rewrite persisted_app, notified_app. simpl.
  rewrite !app_nil_r, Hp, Hn, Rp, Rn, Cp, Cn.
  now rewrite <- !app_assoc.
Qed.

(** X16.  In the poll loop a query fails, with any error at all: one of the
    shape of a 404, or one without a colon.  Then [Reconcile] returns that
    error with the zero result.  The classifier is not consulted in the
    loop: nothing is created again, and the failed tick writes and notifies
    nothing. *)
Theorem Reconcile_tick_query_error
        req (st : State) gkcCR st1 (k : nat) gkcCR' st2 err w1 w2 :
  creating phases cr req st gkcCR st1 ->
  rounds phases cr ctx k gkcCR st1 = Some (gkcCR', st2) ->
  context.Select ctx (world st2) = (context.TickerC, w1) ->
  GetCluster (GCP (cloud cr)) (zoneOf gkcCR') (clusterNameOf gkcCR') w1
    = (inr err, w2) ->
  forall n, k < n ->
    exists st',
      Reconcile phases cr ctx n req st = (Return ctrl.zero (Some err), st') /\
      calls st'
        = calls st2 ++
          [CallGetCluster (zoneOf gkcCR') (clusterNameOf gkcCR');
           CallLogError err "error verifying cluster status";
           CallTickerStop] /\
      length (created (calls st')) = length (created (calls st)) + 1.
Proof.
  intros C R E1 E2 n L.
  destruct (rounds_log _ _ _ _ _ _ _ _ R) as (_ & _ & Rc).
  destruct (creating_log _ _ _ _ _ _ C) as (_ & _ & r & w & _ & Cc).
  rewrite (Reconcile_creating _ _ _ _ _ _ _ C). unfold bind.
  rewrite (poll_ends _ _ _ k n _ _ _ _ _ _ R
             (pollOnce_query_error _ _ _ _ _ _ _ _ E1 E2) L).
  eexists. split; [reflexivity|]. simpl.
  rewrite <- !app_assoc. simpl. split; [reflexivity|].
  rewrite created_app. simpl. rewrite app_nil_r, Rc, Cc, length_app.
  reflexivity.
Qed.

(** X15.  The provider answers the first query with an error that the
    classifier answers [false] for: its message has a colon and the text
    after it is not that of a 404.  Then [Reconcile] returns that error with
    the zero result, and the two queries, to the store and to the provider,
    are all it has done: nothing is created, written or notified, and no
    ticker is started. *)
Theorem Reconcile_first_query_error n req (st : State) gkcCR err w1 w2 :
  client.Get (Client cr) (ctrl.NamespacedName req) (world st)
    = (inl gkcCR, w1) ->
  GetCluster (GCP (cloud cr)) (zoneOf gkcCR) (clusterNameOf gkcCR) w1
    = (inr err, w2) ->
  notFoundGCPResource err = Some false ->
  exists st',
    Reconcile phases cr ctx n req st = (Return ctrl.zero (Some err), st') /\
    created (calls st') = created (calls st) /\
    persisted (calls st') = persisted (calls st) /\
    notified (calls st') = notified (calls st) /\
    started (calls st') = started (calls st).
Proof.
  intros E1 E2 E3.
  rewrite (Reconcile_query_error _ _ _ n _ _ _ _ _ _ E1 E2 E3).
  eexists. split; [reflexivity|]. simpl.
  rewrite created_app, persisted_app, notified_app, started_app. simpl.
  rewrite !app_nil_r. repeat split. lia.
Qed.

(** ** The loop has no bound *)

Section Settled.

(** A condition on the world under which every tick goes round again: the
    [select] receives the tick, the provider answers the query with a status
    that does not end the loop, the store accepts the write, and the
    condition holds again afterwards. *)
Variable settled : W -> Prop.

Hypothesis settled_Select :
  forall w, settled w ->
    exists w', context.Select ctx w = (context.TickerC, w') /\ settled w'.

Hypothesis settled_GetCluster :
  forall w zone name, settled w ->
    exists c w',
      GetCluster (GCP (cloud cr)) zone name w = (inl c, w') /\
      terminal phases (container.Status c) = false /\
      settled w'.

Hypothesis settled_Event :
  forall w obj eventtype reason message, settled w ->
    settled (record.Event (eventRecorder cr) obj eventtype reason message w).

Hypothesis settled_StatusUpdate :
  forall w obj, settled w ->
    exists obj' w',
      client.StatusUpdate (Client cr) obj w = ((obj', None), w') /\
      settled w'.

Lemma settled_rounds (k : nat) :
  forall gkcCR (st : State),
    settled (world st) ->
    exists gkcCR' st',
      rounds phases cr ctx k gkcCR st = Some (gkcCR', st') /\
      settled (world st').
Proof.
  induction k as [|k IH]; intros gkcCR st S; [simpl; eauto|].
  destruct (settled_Select _ S) as (w1 & E1 & S1).
  destruct (settled_GetCluster _ (zoneOf gkcCR) (clusterNameOf gkcCR) S1)
    as (c & w2 & E2 & T & S2).
  destruct (settled_StatusUpdate _
              (benzaiten.withStatus gkcCR ClusterStatusProvisioning)
              (settled_Event _ gkcCR "Normal" "ClusterProvisioning"
                 "GCP Kubernetes Cluster provisioning" S2))
    as (g1 & w3 & E3 & S3).
  simpl.
  rewrite (proj2 (pollOnce_round phases cr ctx gkcCR st g1 _)
             (ex_intro _ w1 (ex_intro _ c (ex_intro _ w2 (ex_intro _ w3
                (conj E1 (conj E2 (conj E3 (conj T eq_refl))))))))).
  apply IH. exact S3.
Qed.

(** X8.  [Reconcile] has gone down the creation path, and from then on the
    provider reports a status that does not end the loop on every tick.
    Then the invocation never returns: however many iterations it is given
    it is still in the loop, having written Provisioning once more on each
    of them. *)
Theorem Reconcile_waits_without_bound req (st : State) gkcCR st1 :
  creating phases cr req st gkcCR st1 ->
  settled (world st1) ->
  forall n,
    fst (Reconcile phases cr ctx n req st) = Waiting /\
    persisted (calls (snd (Reconcile phases cr ctx n req st)))
      = persisted (calls st) ++ repeat ClusterStatusProvisioning (S n).
Proof.
  intros C S n.
  destruct (settled_rounds n gkcCR st1 S) as (g' & st' & R & _).
  destruct (rounds_log _ _ _ _ _ _ _ _ R) as (Rp & _).
  destruct (creating_log _ _ _ _ _ _ C) as (Cp & _).
  assert (P : poll phases cr ctx n gkcCR st1 = (Waiting, st')).
  { rewrite <- (Nat.add_0_r n).
    now rewrite (poll_rounds _ _ _ n 0 _ _ _ _ R). }
  rewrite (Reconcile_creating _ _ _ _ _ _ _ C). unfold bind.
  rewrite P. simpl. split; [reflexivity|].
  rewrite Rp, Cp, <- app_assoc. reflexivity.
Qed.

End Settled.

(** ** The spec is never written to *)

Section Spec.

(** The store hands an object back with the spec it was sent with. *)
Hypothesis store_keeps_spec :
  forall obj w,
    benzaiten.Spec (fst (fst (client.StatusUpdate (Client cr) obj w)))
      = benzaiten.Spec obj.

Ltac kept :=
  repeat match goal with
         | E : client.StatusUpdate _ ?obj ?w = _ |- _ =>
             let X := fresh "X" in
             pose proof (store_keeps_spec obj w) as X;
             rewrite E in X; simpl in X; revert E
         end;
  intros.

Ltac same :=
  repeat (apply Forall_cons; [simpl in *; congruence|]); try apply Forall_nil.

(** One iteration writes objects with the spec of the object it was given,
    queries the provider for the cluster that spec names, and hands on an
    object with the same spec. *)
Lemma pollOnce_keeps_spec gkcCR (st : State) :
  exists added,
    calls (snd (pollOnce phases cr ctx gkcCR st)) = calls st ++ added /\
    Forall (fun obj => benzaiten.Spec obj = benzaiten.Spec gkcCR)
           (written added) /\
    Forall (fun q => q = (zoneOf gkcCR, clusterNameOf gkcCR))
           (queried added) /\
    forall gkcCR',
      fst (pollOnce phases cr ctx gkcCR st) = Continue gkcCR' ->
      benzaiten.Spec gkcCR' = benzaiten.Spec gkcCR.
Proof.
  destruct (pollOnce phases cr ctx gkcCR st) as [it st'] eqn:H.
  run_in H.
  repeat branch H; inversion H; subst; kept; added; simpl;
    repeat split; same; intros ? [=]; subst; simpl in *; congruence.
Qed.

Lemma poll_keeps_spec (n : nat) :
  forall gkcCR (st : State),
    exists added,
      calls (snd (poll phases cr ctx n gkcCR st)) = calls st ++ added /\
      Forall (fun obj => benzaiten.Spec obj = benzaiten.Spec gkcCR)
             (written added) /\
      Forall (fun q => q = (zoneOf gkcCR, clusterNameOf gkcCR))
             (queried added).
Proof.
  induction n as [|n IH]; intros gkcCR st.
  - exists []. split; [symmetry; apply app_nil_r|]. split; constructor.
  - simpl. unfold bind.
    destruct (pollOnce_keeps_spec gkcCR st) as (a1 & E1 & W1 & Q1 & K).
    destruct (pollOnce phases cr ctx gkcCR st) as [[g1|o] st1]; simpl in *.
    + destruct (IH g1 st1) as (a2 & E2 & W2 & Q2).
      specialize (K g1 eq_refl).
      exists (a1 ++ a2). rewrite E2, E1, app_assoc, written_app, queried_app.
      rewrite K in W2, Q2.
      split; [reflexivity|]. split; apply Forall_app; auto.
    + exists a1. auto.
Qed.

(** X14.  When the store hands every object back with the spec it was sent
    with, every status write of an invocation carries the spec of the
    resource as the store first handed it out, and every query to the
    provider names the zone and the cluster of that spec: [Reconcile]
    changes the status of the resource only. *)
Theorem Reconcile_keeps_the_spec n req (st : State) gkcCR w :
  client.Get (Client cr) (ctrl.NamespacedName req) (world st)
    = (inl gkcCR, w) ->
  exists added,
    calls (snd (Reconcile phases cr ctx n req st)) = calls st ++ added /\
    Forall (fun obj => benzaiten.Spec obj = benzaiten.Spec gkcCR)
           (written added) /\
    Forall (fun q => q = (benzaiten.Zone (benzaiten.Spec gkcCR),
                          benzaiten.ClusterName (benzaiten.Spec gkcCR)))
           (queried added).
Proof.
  intro G.
  destruct (Reconcile phases cr ctx n req st) as [o st'] eqn:H.
  run_in H. rewrite G in H. simpl in H.
  repeat branch H; inversion H; subst; kept;
    try match goal with
        | P : poll _ _ _ _ ?g ?s = (_, _) |- _ =>
            let a := fresh "a" in
            let E := fresh "E" in
            let Wa := fresh "Wa" in
            let Qa := fresh "Qa" in
            destruct (poll_keeps_spec n g s) as (a & E & Wa & Qa);
            rewrite P in E; simpl in E; simpl; rewrite E;
            match goal with
            | X : benzaiten.Spec g = _ |- _ => rewrite X in Wa, Qa
            end
        end;
    added; simpl; rewrite ?written_app, ?queried_app; simpl;
    rewrite ?app_nil_r; (split; [|try split]); same; assumption.
Qed.

End Spec.

End Coverage.

(** ** The messages the classifier takes for not-found *)

(** A message without the separator is its own single piece. *)
Lemma Split_whole (s : string) (sep : ascii) :
  strings.Count s sep = 0 -> strings.Split s sep = [s].
Proof.
  induction s as [|c s IH]; simpl; [reflexivity|].
  destruct (Ascii.eqb c sep); simpl; [discriminate|].
  intro H. now rewrite (IH H).
Qed.

(** The first piece ends at the first separator. *)
Lemma Split_app (p t : string) (sep : ascii) :
  strings.Count p sep = 0 ->
  strings.Split (p ++ String sep t) sep = p :: strings.Split t sep.
Proof.
  induction p as [|c p IH]; simpl.
  - now rewrite Ascii.eqb_refl.
  - destruct (Ascii.eqb c sep); simpl; [discriminate|].
    intro H. now rewrite (IH H).
Qed.

(** The first piece has no separator; either it is the whole string, or the
    string goes on with a separator and what the other pieces are split
    from. *)
Lemma Split_cons (s : string) (sep : ascii) :
  forall p ps,
    strings.Split s sep = p :: ps ->
    strings.Count p sep = 0 /\
    ((ps = [] /\ s = p) \/
     exists t, s = (p ++ String sep t)%string /\ strings.Split t sep = ps).
Proof.
  induction s as [|c s IH]; simpl; intros p ps H.
  - inversion H; subst. auto.
  - destruct (Ascii.eqb c sep) eqn:E.
    + apply Ascii.eqb_eq in E. inversion H; subst.
      split; [reflexivity|]. right. exists s. auto.
    + destruct (strings.Split s sep) as [|p' ps'] eqn:S.
      * now apply Split_nonempty in S.
      * inversion H; subst. destruct (IH p' ps eq_refl) as (C & D).
        simpl. rewrite E. split; [exact C|].
        destruct D as [(-> & ->)|(t & -> & T)]; [auto|].
        right. exists t. auto.
Qed.

Lemma append_empty (s : string) : (s ++ "")%string = s.
Proof.
  induction s as [|c s IH]; simpl; [reflexivity|now rewrite IH].
Qed.

(** X13.  The classifier takes an error for not-found exactly when its
    message is: any text without a colon, then ": Error 404", then either
    the end of the message or a colon and any text.  Neither what comes
    before the first colon nor what comes after the second is looked at. *)
Theorem notFoundGCPResource_true (err : error) :
  notFoundGCPResource err = Some true <->
  exists prefix rest,
    strings.Count prefix ":"%char = 0 /\
    (rest = ""%string \/ exists r, rest = String ":"%char r) /\
    Error err = (prefix ++ ": Error 404" ++ rest)%string.
Proof.
  unfold notFoundGCPResource, fmt.Sprintf_v. split.
  - destruct (strings.Split (Error err) ":"%char) as [|p0 [|p1 ps]] eqn:S;
      simpl; try discriminate.
    intro H. injection H as H. apply String.eqb_eq in H. subst p1.
    destruct (Split_cons _ _ _ _ S) as (C0 & [(D & _)|(t & E & T)]);
      [discriminate D|].
    destruct (Split_cons _ _ _ _ T) as (_ & [(_ & ->)|(t' & -> & _)]).
    + exists p0, ""%string. repeat split; auto.
    + exists p0, (String ":"%char t'). repeat split; eauto.
  - intros (prefix & rest & C & R & E). rewrite E.
    change (prefix ++ ": Error 404" ++ rest)%string
      with (prefix ++ String ":"%char (" Error 404" ++ rest))%string.
    rewrite (Split_app _ _ _ C).
    destruct R as [->|(r & ->)].
    + rewrite append_empty. reflexivity.
    + rewrite (Split_app " Error 404" r ":"%char eq_refl). reflexivity.
Qed.

(** ** Scenarios beyond the claims *)

Lemma faulty_creating (answers : list (container.Cluster + error))
      (cases : list context.Ready) (results : list (option error)) :
  creating fake.phases faulty.cr fake.req
    (faulty.start
       (faulty.script (inr fake.notFound :: answers) cases (None :: results)))
    (benzaiten.withStatus fake.demo "PROVISIONING")
    (mkState (faulty.script answers cases results)
             (calls (fake.entered (fake.script [] [])))).
Proof.
  exists fake.demo, fake.notFound,
    {| container.OperationName := "operation-1" |}.
  do 4 eexists. repeat split.
Defined.

Lemma steady_creating (status : string) :
  creating fake.phases (steady.cr status) fake.req
    (fake.start (fake.script [inr fake.notFound] []))
    (benzaiten.withStatus fake.demo "PROVISIONING")
    (fake.entered (fake.script [inr fake.notFound] [])).
Proof.
  exists fake.demo, fake.notFound,
    {| container.OperationName := "operation-1" |}.
  do 4 eexists. repeat split.
Defined.

Lemma steady_Select (w : fake.World) :
  steady.settled w ->
  exists w',
    context.Select fake.ctx w = (context.TickerC, w') /\ steady.settled w'.
Proof.
  intros [C R]. exists w. split; [|split; assumption].
  simpl. unfold fake.contextSelect. now rewrite R.
Defined.

Lemma steady_GetCluster (w : fake.World) (zone name : string) :
  steady.settled w ->
  exists c w',
    GetCluster (GCP (cloud (steady.cr "RECONCILING"))) zone name w
      = (inl c, w') /\
    terminal fake.phases (container.Status c) = false /\
    steady.settled w'.
Proof.
  intros [C R]. exists (fake.cluster "RECONCILING"), w.
  split; [|split; [reflexivity|split; assumption]].
  simpl. unfold steady.providerGetCluster. now rewrite C.
Defined.

Lemma steady_StatusUpdate (w : fake.World)
      (obj : benzaiten.GCPKubernetesCluster) :
  steady.settled w ->
  exists obj' w',
    client.StatusUpdate (Client (steady.cr "RECONCILING")) obj w
      = ((obj', None), w') /\
    steady.settled w'.
Proof.
  intro S. exists obj, w. split; [reflexivity|exact S].
Defined.

(** The store cannot be reached. *)
Lemma Reconcile_store_error_witness :
  fst (Reconcile fake.phases fake.cr fake.ctx 0 fake.req
         (fake.start
            {| fake.stored := inr faulty.unreachable;
               fake.clusters := [];
               fake.operation := inr fake.unscripted;
               fake.ready := [] |}))
    = Return ctrl.zero (Some faulty.unreachable).
Proof.
  now rewrite (Reconcile_store_error fake.phases fake.cr fake.ctx 0 fake.req
                 (fake.start
                    {| fake.stored := inr faulty.unreachable;
                       fake.clusters := [];
                       fake.operation := inr fake.unscripted;
                       fake.ready := [] |})
                 faulty.unreachable _ eq_refl eq_refl).
Defined.

(** The provider has no quota left for the cluster. *)
Lemma Reconcile_create_refused_witness :
  exists st',
    Reconcile fake.phases fake.cr fake.ctx 1 fake.req
      (fake.start
         {| fake.stored := inl fake.demo;
            fake.clusters := [inr fake.notFound];
            fake.operation := inr faulty.quota;
            fake.ready := [] |})
      = (Return ctrl.zero (Some faulty.quota), st') /\
    persisted (calls st') = [] /\
    notified (calls st') = [].
Proof.
  destruct (Reconcile_create_refused fake.phases fake.cr fake.ctx 1 fake.req
              (fake.start
                 {| fake.stored := inl fake.demo;
                    fake.clusters := [inr fake.notFound];
                    fake.operation := inr faulty.quota;
                    fake.ready := [] |})
              fake.demo fake.notFound _ _ faulty.quota _
              eq_refl eq_refl eq_refl eq_refl)
    as (st' & E & _ & P & N & _).
  exists st'. auto.
Defined.

(** The store refuses the write of Provisioning after the create. *)
Lemma Reconcile_first_write_refused_witness :
  exists st',
    Reconcile fake.phases faulty.cr faulty.ctx 1 fake.req
      (faulty.start
         (faulty.script [inr fake.notFound] [] [Some faulty.conflict]))
      = (Return ctrl.zero (Some faulty.conflict), st') /\
    length (created (calls st')) = 1 /\
    started (calls st') = 0.
Proof.
  destruct (Reconcile_first_write_refused fake.phases faulty.cr faulty.ctx 1
              fake.req
              (faulty.start
                 (faulty.script [inr fake.notFound] []
                                [Some faulty.conflict]))
              fake.demo fake.notFound _ _ _ _ _ faulty.conflict _
              eq_refl eq_refl eq_refl eq_refl eq_refl)
    as (st' & E & C & _ & _ & _ & S).
  exists st'. split; [exact E|]. split; [now rewrite C|exact S].
Defined.

(** The store refuses the write of Running for a cluster that was found. *)
Lemma Reconcile_found_write_refused_witness :
  exists st',
    Reconcile fake.phases faulty.cr faulty.ctx 0 fake.req
      (faulty.start
         (faulty.script [inl (fake.cluster "RUNNING")] []
                        [Some faulty.conflict]))
      = (Return ctrl.zero (Some faulty.conflict), st').
Proof.
  destruct (Reconcile_found_write_refused fake.phases faulty.cr faulty.ctx 0
              fake.req
              (faulty.start
                 (faulty.script [inl (fake.cluster "RUNNING")] []
                                [Some faulty.conflict]))
              fake.demo (fake.cluster "RUNNING") _ _ _ faulty.conflict _
              eq_refl eq_refl eq_refl)
    as (st' & E & _).
  exists st'. exact E.
Defined.

(** The first tick sees RUNNING and the store refuses its write of
    Provisioning. *)
Lemma Reconcile_tick_write_refused_witness :
  exists st',
    Reconcile fake.phases faulty.cr faulty.ctx 1 fake.req
      (faulty.start
         (faulty.script [inr fake.notFound; inl (fake.cluster "RUNNING")] []
                        [None; Some faulty.conflict]))
      = (Return ctrl.zero (Some faulty.conflict), st') /\
    persisted (calls st') = ["PROVISIONING"; "PROVISIONING"].
Proof.
  destruct (Reconcile_tick_write_refused fake.phases faulty.cr faulty.ctx
              fake.req _ _ _ 0 _ _ _ (fake.cluster "RUNNING") _ _
              faulty.conflict _
              (faulty_creating [inl (fake.cluster "RUNNING")] []
                               [Some faulty.conflict])
              eq_refl eq_refl eq_refl eq_refl 1 (le_n 1))
    as (st' & E & P & _).
  exists st'. split; [exact E|exact P].
Defined.

(** The first tick sees RUNNING and the store refuses the write of
    Running. *)
Lemma Reconcile_final_write_refused_witness :
  exists st',
    Reconcile fake.phases faulty.cr faulty.ctx 1 fake.req
      (faulty.start
         (faulty.script [inr fake.notFound; inl (fake.cluster "RUNNING")] []
                        [None; None; Some faulty.conflict]))
      = (Return ctrl.zero (Some faulty.conflict), st') /\
    notified (calls st')
      = [("Normal", "ClusterCreation", "GCP Kubernetes Cluster creating");
         ("Normal", "ClusterProvisioning",
          "GCP Kubernetes Cluster provisioning");
         ("Normal", "ClusterRunning", "GCP Kubernetes Cluster running")].
Proof.
  destruct (Reconcile_final_write_refused fake.phases faulty.cr faulty.ctx
              fake.req _ _ _ 0 _ _ _ (fake.cluster "RUNNING") _ _ _ _
              faulty.conflict _
              (faulty_creating [inl (fake.cluster "RUNNING")] []
                               [None; Some faulty.conflict])
              eq_refl eq_refl eq_refl eq_refl eq_refl eq_refl 1 (le_n 1))
    as (st' & E & _ & N).
  exists st'. split; [exact E|exact N].
Defined.

(** The provider reports ERROR on the first tick. *)
Lemma Reconcile_creates_then_not_running_witness :
  exists st',
    Reconcile fake.phases fake.cr fake.ctx 1 fake.req
      (fake.start
         (fake.script [inr fake.notFound; inl (fake.cluster "ERROR")] []))
      = (Return ctrl.zero None, st') /\
    persisted (calls st') = ["PROVISIONING"; "PROVISIONING"; "ERROR"] /\
    notified (calls st')
      = [("Normal", "ClusterCreation", "GCP Kubernetes Cluster creating");
         ("Normal", "ClusterProvisioning",
          "GCP Kubernetes Cluster provisioning");
         ("Warning", "ClusterNotRunning",
          "GCP Kubernetes Cluster status is not running: ERROR")].
Proof.
  exact (Reconcile_creates_then_not_running fake.phases fake.cr fake.ctx
           fake.req _ _ _ 0 _ _ _ (fake.cluster "ERROR") _
           fake_accepted
           (fake_creating [inl (fake.cluster "ERROR")] [])
           eq_refl eq_refl eq_refl
           ltac:(discriminate) (or_introl eq_refl) 1 (le_n 1)).
Defined.

(** The provider reports RECONCILING for ever. *)
Lemma Reconcile_waits_without_bound_witness :
  fst (Reconcile fake.phases (steady.cr "RECONCILING") fake.ctx 5 fake.req
         (fake.start (fake.script [inr fake.notFound] [])))
    = Waiting /\
  persisted
    (calls (snd (Reconcile fake.phases (steady.cr "RECONCILING") fake.ctx 5
                   fake.req
                   (fake.start (fake.script [inr fake.notFound] [])))))
    = repeat "PROVISIONING" 6.
Proof.
  exact (Reconcile_waits_without_bound fake.phases
           (steady.cr "RECONCILING") fake.ctx steady.settled
           steady_Select steady_GetCluster
           (fun w _ _ _ _ S => S) steady_StatusUpdate
           fake.req _ _ _ (steady_creating "RECONCILING")
           (conj eq_refl eq_refl) 5).
Defined.

(** The scripted store hands every object back as it was sent. *)
Lemma Reconcile_keeps_the_spec_witness :
  exists added,
    calls (snd (Reconcile fake.phases fake.cr fake.ctx 2 fake.req
                  (fake.start
                     (fake.script [inr fake.notFound;
                                   inl (fake.cluster "PROVISIONING");
                                   inl (fake.cluster "RUNNING")] []))))
      = [] ++ added /\
    Forall (fun obj => benzaiten.Spec obj = benzaiten.Spec fake.demo)
           (written added) /\
    Forall (fun q => q = ("us-central1-a", "demo")) (queried added).
Proof.
  exact (Reconcile_keeps_the_spec fake.phases fake.cr fake.ctx
           (fun _ _ => eq_refl) 2 fake.req
           (fake.start
              (fake.script [inr fake.notFound;
                            inl (fake.cluster "PROVISIONING");
                            inl (fake.cluster "RUNNING")] []))
           fake.demo _ eq_refl).
Defined.

(** The provider refuses the first query for want of a permission. *)
Lemma Reconcile_first_query_error_witness :
  notFoundGCPResource fake.forbidden = Some false /\
  exists st',
    Reconcile fake.phases fake.cr fake.ctx 0 fake.req
      (fake.start (fake.script [inr fake.forbidden] []))
      = (Return ctrl.zero (Some fake.forbidden), st') /\
    created (calls st') = [].
Proof.
  split; [reflexivity|].
  destruct (Reconcile_first_query_error fake.phases fake.cr fake.ctx 0
              fake.req
              (fake.start (fake.script [inr fake.forbidden] []))
              fake.demo fake.forbidden _ _ eq_refl eq_refl eq_refl)
    as (st' & E & C & _).
  exists st'. split; [exact E|exact C].
Defined.

(** The cluster is gone again on the first tick. *)
Lemma Reconcile_tick_query_error_witness :
  exists st',
    Reconcile fake.phases fake.cr fake.ctx 1 fake.req
      (fake.start (fake.script [inr fake.notFound; inr fake.notFound] []))
      = (Return ctrl.zero (Some fake.notFound), st') /\
    length (created (calls st')) = 1.
Proof.
  destruct (Reconcile_tick_query_error fake.phases fake.cr fake.ctx
              fake.req _ _ _ 0 _ _ fake.notFound _ _
              (fake_creating [inr fake.notFound] [])
              eq_refl eq_refl eq_refl 1 (le_n 1))
    as (st' & E & _ & C).
  exists st'. split; [exact E|exact C].
Defined.
